(** * Checkout relay (src/app.ts): retry wrapper and /checkout handler

    A shallow embedding of [retryAsync], [generateOrderId] and the
    [POST /checkout] handler of src/app.ts, and the properties of the
    retry-and-partial-failure handling around the charge + persist sequence.

    The handler talks to three things outside the process: the payment
    gateway, the document store, and the JavaScript runtime (clock, random
    numbers, timers).  They are an abstract environment: a state type [R]
    with one transition function per call the source makes.  What the
    Appwrite client's setters throw for a configuration value is a parameter
    too ([AppwriteSdk]).  A run of the handler threads a [World] through: the environment, the trace of remote
    calls and timer waits performed so far, and the responses written to
    [res]. *)

From Stdlib Require Import ZArith Floats Ascii String List Lia Bool.
From stdpp Require Import base option list strings gmap.
Import ListNotations.
Local Open Scope string_scope.
Local Open Scope Z_scope.

(** ** JavaScript values *)

Module JS.

(** A value produced by [JSON.parse] (what [express.json()] leaves in
    [req.body]).  Numbers are IEEE-754 doubles, as in JavaScript. *)
#[warnings="-register-all"]
Inductive json : Type :=
| JNull
| JBool (b : bool)
| JNum (x : float)
| JStr (s : string)
| JArr (xs : list json)
| JObj (fields : list (string * json)).

(** A JavaScript value as the handler sees one: [undefined], a JSON-like
    value, or an [Error] instance carrying its [message]. *)
Inductive value : Type :=
| VUndefined
| VJson (j : json)
| VError (message : string).

(** A destructured property of [req.body]: [None] is [undefined]. *)
Definition of_field (f : option json) : value :=
  match f with
  | Some j => VJson j
  | None => VUndefined
  end.

(** ToBoolean.  Falsy: undefined, null, false, +0, -0, NaN, the empty string. *)
Definition truthy (v : value) : bool :=
  match v with
  | VUndefined => false
  | VJson JNull => false
  | VJson (JBool b) => b
  | VJson (JNum x) => negb (PrimFloat.eqb x 0%float || PrimFloat.is_nan x)
  | VJson (JStr s) => negb (String.eqb s "")
  | VJson (JArr _) => true
  | VJson (JObj _) => true
  | VError _ => true
  end.

(** Own-property lookup in an object literal. *)
Fixpoint get_property (k : string) (fields : list (string * json)) : value :=
  match fields with
  | [] => VUndefined
  | (k', j) :: rest => if String.eqb k k' then VJson j else get_property k rest
  end.

(** [v.message].  Reading a property of [undefined] or [null] throws a
    TypeError ([inr]); primitives and arrays have no such property. *)
Definition read_message (v : value) : value + value :=
  match v with
  | VUndefined =>
      inr (VError "Cannot read properties of undefined (reading 'message')")
  | VJson JNull =>
      inr (VError "Cannot read properties of null (reading 'message')")
  | VJson (JObj fields) => inl (get_property "message" fields)
  | VJson _ => inl VUndefined
  | VError m => inl (VJson (JStr m))
  end.

(** An object literal as [JSON.stringify] writes it: properties whose value
    is [undefined] are left out, an [Error] serialises as [{}]. *)
Fixpoint stringify_object (props : list (string * value)) : list (string * json) :=
  match props with
  | [] => []
  | (k, VUndefined) :: rest => stringify_object rest
  | (k, VJson j) :: rest => (k, j) :: stringify_object rest
  | (k, VError _) :: rest => (k, JObj []) :: stringify_object rest
  end.

(** *** Strings *)

Definition digit36 (d : Z) : ascii :=
  if d <? 10 then ascii_of_nat (Z.to_nat (48 + d))
  else ascii_of_nat (Z.to_nat (97 + (d - 10))).

(** Digits of a non-negative integer in radix 36, most significant first.
    [fuel] bounds the number of digits. *)
Fixpoint digits36 (fuel : nat) (n : Z) (acc : string) : string :=
  match fuel with
  | O => acc
  | S fuel' =>
      let acc' := String (digit36 (n mod 36)) acc in
      if n / 36 =? 0 then acc' else digits36 fuel' (n / 36) acc'
  end.

(** [Number.prototype.toString(36)] on an integer. *)
Definition toString36 (n : Z) : string :=
  let mag := Z.abs n in
  let ds := digits36 (S (Z.to_nat (Z.log2 mag))) mag "" in
  if n <? 0 then String "-" ds else ds.

Definition upper_ascii (c : ascii) : ascii :=
  let n := nat_of_ascii c in
  if ((97 <=? n) && (n <=? 122))%nat then ascii_of_nat (n - 32) else c.

(** [String.prototype.toUpperCase] on ASCII text (all this program feeds it). *)
Fixpoint toUpperCase (s : string) : string :=
  match s with
  | EmptyString => EmptyString
  | String c rest => String (upper_ascii c) (toUpperCase rest)
  end.

(** [s.slice(start, stop)] for indices [0 <= start <= stop]. *)
Definition slice (start stop : nat) (s : string) : string :=
  String.substring start (stop - start) s.

(** Decimal rendering of [n mod 10^width], zero-padded to [width] digits. *)
Fixpoint pad (width : nat) (n : Z) (acc : string) : string :=
  match width with
  | O => acc
  | S w => pad w (n / 10) (String (ascii_of_nat (Z.to_nat (48 + n mod 10))) acc)
  end.

(** Proleptic Gregorian date of a day number counted from 1970-01-01. *)
Definition civil_from_days (days : Z) : Z * Z * Z :=
  let z := days + 719468 in
  let era := z / 146097 in
  let doe := z - era * 146097 in
  let yoe := (doe - doe / 1460 + doe / 36524 - doe / 146096) / 365 in
  let doy := doe - (365 * yoe + yoe / 4 - yoe / 100) in
  let mp := (5 * doy + 2) / 153 in
  let d := doy - (153 * mp + 2) / 5 + 1 in
  let m := if mp <? 10 then mp + 3 else mp - 9 in
  let y := yoe + era * 400 + (if m <=? 2 then 1 else 0) in
  (y, m, d).

(** [Date.prototype.toISOString] of a time value in milliseconds since the
    epoch: YYYY-MM-DDTHH:mm:ss.sssZ, with the signed six-digit year outside
    0..9999. *)
Definition toISOString (t : Z) : string :=
  let days := t / 86400000 in
  let ms := t mod 86400000 in
  let '(y, m, d) := civil_from_days days in
  let year :=
    if (0 <=? y) && (y <=? 9999) then pad 4 y ""
    else String (if y <? 0 then "-"%char else "+"%char) (pad 6 (Z.abs y) "") in
  year ++ "-" ++ pad 2 m "" ++ "-" ++ pad 2 d ""
       ++ "T" ++ pad 2 (ms / 3600000) ""
       ++ ":" ++ pad 2 (ms / 60000 mod 60) ""
       ++ ":" ++ pad 2 (ms / 1000 mod 60) ""
       ++ "." ++ pad 3 (ms mod 1000) "" ++ "Z".

End JS.

Import JS.

(** ** Data of the checkout *)

(** The argument of [gateway.transaction.sale] (lines 70-77). *)
Record SaleRequest : Type := {
  sale_amount : value;
  sale_paymentMethodNonce : value;
  sale_deviceData : value;
  sale_submitForSettlement : bool
}.

Record Transaction : Type := {
  tx_id : string;
  tx_status : string
}.

(** What the sale resolves to.  The handler reads [result.success],
    [result.transaction?.id] and [result.transaction.status]; a result may
    come without a transaction. *)
Record SaleResult : Type := {
  success : bool;
  transaction : option Transaction
}.

(** The [order] object literal of lines 82-93. *)
Record Order : Type := {
  order_name : value;
  order_email : value;
  order_phone : value;
  order_shippingAddress : value;
  order_billingAddress : value;
  order_orderId : string;
  order_orderDetails : value;
  order_creationTime : string;
  order_status : string;
  order_transactionId : option string
}.

(** [process.env]: a variable that is not set reads as [undefined]. *)
Record ProcessEnv : Type := {
  APPWRITE_ENDPOINT : option string;
  APPWRITE_PROJECT : option string;
  APPWRITE_API_KEY : option string;
  APPWRITE_DATABASE_ID : option string;
  APPWRITE_ORDERS_COLLECTION_ID : option string
}.

(** The configured [Client] of lines 97-101. *)
Record Client : Type := {
  client_endpoint : option string;
  client_project : option string;
  client_key : option string
}.

(** The arguments of one [database.createDocument] call (lines 104-109). *)
Record CreateDocument : Type := {
  doc_client : Client;
  doc_databaseId : option string;
  doc_collectionId : option string;
  doc_documentId : string;
  doc_data : Order
}.

(** What [res.status(s).json(b)] writes. *)
Record Response : Type := {
  status : Z;
  body : list (string * json)
}.

(** ** Environment, world and the monad of handlers *)

(** How an awaited expression or a statement completes. *)
Inductive completion (A : Type) : Type :=
| Normal (a : A)
| Throw (error : value).
Arguments Normal {A} a.
Arguments Throw {A} error.

(** The outside of the process, over its state [R].  A remote call resolves
    ([Normal]) or rejects ([Throw]) and moves the state; so do a clock read,
    a random draw and the passing of a timer delay.
    [Number_toString36] is the runtime's radix-36 rendering of a double
    ([Math.random().toString(36)]). *)
Class Environment (R : Type) : Type := {
  gateway_transaction_sale : SaleRequest -> R -> completion SaleResult * R;
  database_createDocument : CreateDocument -> R -> completion unit * R;
  Date_now : R -> Z * R;
  Math_random : R -> float * R;
  Number_toString36 : float -> string;
  setTimeout_elapse : Z -> R -> R
}.

(** The setters of the Appwrite [Client].  node-appwrite is not part of the
    repository and its version is not fixed by it: what a setter throws for
    an argument, if anything, is a parameter ([None]: the argument is
    accepted and stored). *)
Class AppwriteSdk : Type := {
  setEndpoint_check : option string -> option value;
  setProject_check : option string -> option value;
  setKey_check : option string -> option value
}.

(** A remote call, as the trace records it. *)
Inductive call : Type :=
| CallSale (req : SaleRequest)
| CallCreateDocument (args : CreateDocument)
| CallOther (name : string).

Inductive event : Type :=
| Invoke (c : call)
| Timeout (ms : Z).

Record World (R : Type) : Type := {
  env : R;
  trace : list event;
  responses : list Response
}.
Arguments env {R} w.
Arguments trace {R} w.
Arguments responses {R} w.
Arguments Build_World {R} env trace responses.

Definition M (R A : Type) : Type := World R -> completion A * World R.

Definition ret {R A} (a : A) : M R A := fun w => (Normal a, w).

Definition throw {R A} (e : value) : M R A := fun w => (Throw e, w).

Definition bind {R A B} (m : M R A) (k : A -> M R B) : M R B :=
  fun w =>
    match m w with
    | (Normal a, w') => k a w'
    | (Throw e, w') => (Throw e, w')
    end.

(** [try { m } catch (e) { handler e }]. *)
Definition try_catch {R A} (m : M R A) (handler : value -> M R A) : M R A :=
  fun w =>
    match m w with
    | (Normal a, w') => (Normal a, w')
    | (Throw e, w') => handler e w'
    end.

(** The completion of [m] as a value: the [try]/[catch] around one [await]. *)
Definition attempt {R A} (m : M R A) : M R (completion A) :=
  fun w => let '(c, w') := m w in (Normal c, w').

(** A synchronous expression, which completes without touching the world. *)
Definition settle {R A} (c : completion A) : M R A := fun w => (c, w).

Declare Scope js_scope.
Delimit Scope js_scope with js.
Notation "'let*' x ':=' m 'in' k" := (bind m (fun x => k))
  (at level 10, x name, m at level 100, k at level 200) : js_scope.
Notation "'do' m 'then' k" := (bind m (fun _ => k))
  (at level 10, m at level 100, k at level 200) : js_scope.
Local Open Scope js_scope.

(** Number of remote calls in a trace that satisfy [p]. *)
Fixpoint count_calls (p : call -> bool) (t : list event) : nat :=
  match t with
  | [] => O
  | Invoke c :: t' => if p c then S (count_calls p t') else count_calls p t'
  | Timeout _ :: t' => count_calls p t'
  end.

Definition is_sale (c : call) : bool :=
  match c with CallSale _ => true | _ => false end.

Definition is_createDocument (c : call) : bool :=
  match c with CallCreateDocument _ => true | _ => false end.

Definition any_call (c : call) : bool := true.

(** The timer waits of a trace, in order. *)
Fixpoint timeouts (t : list event) : list Z :=
  match t with
  | [] => []
  | Invoke _ :: t' => timeouts t'
  | Timeout ms :: t' => ms :: timeouts t'
  end.

(** ** The program *)

Section Program.

Context {R : Type} `{Environment R} `{AppwriteSdk}.

(** One remote call: it is recorded in the trace, and the environment
    decides how it settles. *)
Definition perform {T} (c : call) (run : R -> completion T * R) : M R T :=
  fun w =>
    let '(r, e') := run (env w) in
    (r, Build_World e' (trace w ++ [Invoke c]) (responses w)).

(** [await new Promise(resolve => setTimeout(resolve, delay))]. *)
Definition sleep (delay : Z) : M R unit :=
  fun w =>
    (Normal tt,
     Build_World (setTimeout_elapse delay (env w))
                 (trace w ++ [Timeout delay]) (responses w)).

(** A read of the environment that cannot fail ([Date.now()],
    [Math.random()]). *)
Definition ask {A} (read : R -> A * R) : M R A :=
  fun w =>
    let '(a, e') := read (env w) in
    (Normal a, Build_World e' (trace w) (responses w)).

(** [res.status(s).json(props)]. *)
Definition res_status_json (s : Z) (props : list (string * value)) : M R unit :=
  fun w =>
    (Normal tt,
     Build_World (env w) (trace w)
                 (responses w ++ [Build_Response s (stringify_object props)])).

(** [res.json(props)]: the status stays at its default, 200. *)
Definition res_json (props : list (string * value)) : M R unit :=
  res_status_json 200 props.

(** *** retryAsync (lines 32-45)

    [for (let i = 0; i < retries; i++)]: the loop test is evaluated at each
    round; [budget] is the number of rounds the definition may still unfold
    and is started at [retries], which the test never outlasts (see
    [retry_loop_budget]).  Both ways out of the loop reach line 44. *)
Fixpoint retry_loop {T} (fn : M R T) (retries delay : Z)
         (budget : nat) (i : Z) (lastError : value) : M R T :=
  match budget with
  | O => throw lastError
  | S budget' =>
      if i <? retries then
        let* r := attempt fn in
        match r with
        | Normal v => ret v
        | Throw error =>
            do (if i <? retries - 1 then sleep delay else ret tt) then
            retry_loop fn retries delay budget' (i + 1) error
        end
      else throw lastError
  end.

(** [delay = 1000] when the argument is left out. *)
Definition retryAsync {T} (fn : M R T) (retries : Z) (delay : option Z) : M R T :=
  let delay := default 1000 delay in
  retry_loop fn retries delay (Z.to_nat retries) 0 VUndefined.

(** *** generateOrderId (lines 129-133) *)
Definition generateOrderId : M R string :=
  let* now := ask Date_now in
  let timestamp := toString36 now in
  let* random := ask Math_random in
  let randomStr := slice 2 7 (Number_toString36 random) in
  ret (toUpperCase (timestamp ++ "-" ++ randomStr)).

(** [result.transaction?.id] *)
Definition transaction_id (result : SaleResult) : option string :=
  tx_id <$> transaction result.

(** [result.transaction.status]: a TypeError when there is no transaction. *)
Definition transaction_status (result : SaleResult) : M R string :=
  match transaction result with
  | Some t => ret (tx_status t)
  | None => throw (VError "Cannot read properties of undefined (reading 'status')")
  end.

(** [error.message] *)
Definition message_of (error : value) : M R value :=
  match read_message error with
  | inl v => ret v
  | inr type_error => throw type_error
  end.

(** A string that may be [undefined], as a value. *)
Definition of_string (s : option string) : value :=
  match s with
  | Some s => VJson (JStr s)
  | None => VUndefined
  end.

Variable process_env : ProcessEnv.

(** [new Client()]: nothing is configured yet (the three setters that follow
    overwrite whatever the SDK starts from). *)
Definition new_Client : Client :=
  {| client_endpoint := None; client_project := None; client_key := None |}.

(** [client.setEndpoint(endpoint)]: throws what the SDK throws for the
    argument, or stores it and returns the client. *)
Definition Client_setEndpoint (endpoint : option string) (client : Client)
  : completion Client :=
  match setEndpoint_check endpoint with
  | Some error => Throw error
  | None =>
      Normal {| client_endpoint := endpoint;
                client_project := client_project client;
                client_key := client_key client |}
  end.

(** [client.setProject(project)] *)
Definition Client_setProject (project : option string) (client : Client)
  : completion Client :=
  match setProject_check project with
  | Some error => Throw error
  | None =>
      Normal {| client_endpoint := client_endpoint client;
                client_project := project;
                client_key := client_key client |}
  end.

(** [client.setKey(key)] *)
Definition Client_setKey (key : option string) (client : Client)
  : completion Client :=
  match setKey_check key with
  | Some error => Throw error
  | None =>
      Normal {| client_endpoint := client_endpoint client;
                client_project := client_project client;
                client_key := key |}
  end.

(** Lines 97-101: [new Client()], then
    [client.setEndpoint(..).setProject(..).setKey(..)] on the values of
    [process.env]. *)
Definition configure_client : M R Client :=
  let client := new_Client in
  let* client := settle (Client_setEndpoint (APPWRITE_ENDPOINT process_env) client) in
  let* client := settle (Client_setProject (APPWRITE_PROJECT process_env) client) in
  settle (Client_setKey (APPWRITE_API_KEY process_env) client).

(** *** POST /checkout (lines 61-127)

    [new Databases(client)] (line 103) only keeps the client: the database
    handle is the configured client. *)
Definition checkout (req_body : gmap string json) : M R unit :=
  let name := of_field (req_body !! "name") in
  let email := of_field (req_body !! "email") in
  let phone := of_field (req_body !! "phone") in
  let shippingAddress := of_field (req_body !! "shippingAddress") in
  let billingAddress := of_field (req_body !! "billingAddress") in
  let orderDetails := of_field (req_body !! "orderDetails") in
  let payment_method_nonce := of_field (req_body !! "payment_method_nonce") in
  let amount := of_field (req_body !! "amount") in
  let deviceData := of_field (req_body !! "deviceData") in
  if negb (truthy name) || negb (truthy email) || negb (truthy shippingAddress)
     || negb (truthy orderDetails) || negb (truthy payment_method_nonce)
     || negb (truthy amount)
  then
    res_status_json 400
      [("ok", VJson (JBool false)); ("message", VJson (JStr "Missing required fields"))]
  else
    try_catch
      (let sale :=
         {| sale_amount := amount;
            sale_paymentMethodNonce := payment_method_nonce;
            sale_deviceData := deviceData;
            sale_submitForSettlement := true |} in
       let* result := perform (CallSale sale) (gateway_transaction_sale sale) in
       if success result then
         let* orderId := generateOrderId in
         let* now := ask Date_now in
         let order :=
           {| order_name := name;
              order_email := email;
              order_phone := phone;
              order_shippingAddress := shippingAddress;
              order_billingAddress := billingAddress;
              order_orderId := orderId;
              order_orderDetails := orderDetails;
              order_creationTime := toISOString now;
              order_status := "Pending";
              order_transactionId := transaction_id result |} in
         try_catch
           (let* client := configure_client in
            let database := client in
            let create :=
              {| doc_client := database;
                 doc_databaseId := APPWRITE_DATABASE_ID process_env;
                 doc_collectionId := APPWRITE_ORDERS_COLLECTION_ID process_env;
                 doc_documentId := orderId;
                 doc_data := order |} in
            do retryAsync
                 (perform (CallCreateDocument create) (database_createDocument create))
                 3 None then
            res_json
              [("ok", VJson (JBool true)); ("orderId", VJson (JStr orderId));
               ("transactionId", of_string (transaction_id result))])
           (fun dbError =>
              res_status_json 500
                [("ok", VJson (JBool false));
                 ("message",
                  VJson (JStr "Payment processed but order creation failed. Please contact support."));
                 ("transactionId", of_string (transaction_id result))])
       else
         let* status := transaction_status result in
         res_status_json 400
           [("ok", VJson (JBool false)); ("message", VJson (JStr status))])
      (fun error =>
         let* message := message_of error in
         res_status_json 500 [("ok", VJson (JBool false)); ("error", message)]).

End Program.

Arguments configure_client {R _} process_env.
Arguments checkout {R _ _} process_env req_body.

(** ** The handler as the specification words it

    The specification has the charge "wrapped in the Retry Wrapper" with the
    policy of the document-create call.  [checkout_as_specified] follows
    those words: it is [checkout] with the sale under [retryAsync _ 3].  It
    is not in the source; it is what [checkout] is compared with. *)

Section AsSpecified.

Context {R : Type} `{Environment R} `{AppwriteSdk}.
Variable process_env : ProcessEnv.

Definition checkout_as_specified (req_body : gmap string json) : M R unit :=
  let name := of_field (req_body !! "name") in
  let email := of_field (req_body !! "email") in
  let phone := of_field (req_body !! "phone") in
  let shippingAddress := of_field (req_body !! "shippingAddress") in
  let billingAddress := of_field (req_body !! "billingAddress") in
  let orderDetails := of_field (req_body !! "orderDetails") in
  let payment_method_nonce := of_field (req_body !! "payment_method_nonce") in
  let amount := of_field (req_body !! "amount") in
  let deviceData := of_field (req_body !! "deviceData") in
  if negb (truthy name) || negb (truthy email) || negb (truthy shippingAddress)
     || negb (truthy orderDetails) || negb (truthy payment_method_nonce)
     || negb (truthy amount)
  then
    res_status_json 400
      [("ok", VJson (JBool false)); ("message", VJson (JStr "Missing required fields"))]
  else
    try_catch
      (let sale :=
         {| sale_amount := amount;
            sale_paymentMethodNonce := payment_method_nonce;
            sale_deviceData := deviceData;
            sale_submitForSettlement := true |} in
       let* result :=
         retryAsync (perform (CallSale sale) (gateway_transaction_sale sale)) 3 None in
       if success result then
         let* orderId := generateOrderId in
         let* now := ask Date_now in
         let order :=
           {| order_name := name;
              order_email := email;
              order_phone := phone;
              order_shippingAddress := shippingAddress;
              order_billingAddress := billingAddress;
              order_orderId := orderId;
              order_orderDetails := orderDetails;
              order_creationTime := toISOString now;
              order_status := "Pending";
              order_transactionId := transaction_id result |} in
         try_catch
           (let* client := configure_client process_env in
            let database := client in
            let create :=
              {| doc_client := database;
                 doc_databaseId := APPWRITE_DATABASE_ID process_env;
                 doc_collectionId := APPWRITE_ORDERS_COLLECTION_ID process_env;
                 doc_documentId := orderId;
                 doc_data := order |} in
            do retryAsync
                 (perform (CallCreateDocument create) (database_createDocument create))
                 3 None then
            res_json
              [("ok", VJson (JBool true)); ("orderId", VJson (JStr orderId));
               ("transactionId", of_string (transaction_id result))])
           (fun dbError =>
              res_status_json 500
                [("ok", VJson (JBool false));
                 ("message",
                  VJson (JStr "Payment processed but order creation failed. Please contact support."));
                 ("transactionId", of_string (transaction_id result))])
       else
         let* status := transaction_status result in
         res_status_json 400
           [("ok", VJson (JBool false)); ("message", VJson (JStr status))])
      (fun error =>
         let* message := message_of error in
         res_status_json 500 [("ok", VJson (JBool false)); ("error", message)]).

End AsSpecified.

Arguments checkout_as_specified {R _ _} process_env req_body.

(** ** A scripted environment

    A gateway and a document store that answer successive calls from a
    script, a clock that timers advance, and a fixed random draw.  It is the
    concrete environment the general statements are instantiated at. *)

Module Mock.

Record state : Type := {
  sale_outcomes : list (completion SaleResult);
  create_outcomes : list (completion unit);
  clock : Z
}.

Definition refused {A} : completion A := Throw (VError "connect ECONNREFUSED").

Definition sale (_ : SaleRequest) (s : state) : completion SaleResult * state :=
  match sale_outcomes s with
  | [] => (refused, s)
  | o :: rest => (o, {| sale_outcomes := rest; create_outcomes := create_outcomes s; clock := clock s |})
  end.

Definition createDocument (_ : CreateDocument) (s : state) : completion unit * state :=
  match create_outcomes s with
  | [] => (refused, s)
  | o :: rest => (o, {| sale_outcomes := sale_outcomes s; create_outcomes := rest; clock := clock s |})
  end.

Definition elapse (ms : Z) (s : state) : state :=
  {| sale_outcomes := sale_outcomes s; create_outcomes := create_outcomes s;
     clock := clock s + ms |}.

#[global] Instance environment : Environment state := {
  gateway_transaction_sale := sale;
  database_createDocument := createDocument;
  Date_now := fun s => (clock s, s);
  Math_random := fun s => (0.5%float, s);
  Number_toString36 := fun _ => "0.i";
  setTimeout_elapse := elapse
}.

(** The SDK as node-appwrite has it of late: [setEndpoint] wants a string
    that starts with http:// or https://; the other setters take anything. *)
Definition endpoint_check (endpoint : option string) : option value :=
  match endpoint with
  | None => Some (VError "Cannot read properties of undefined (reading 'startsWith')")
  | Some url =>
      if String.prefix "http://" url || String.prefix "https://" url then None
      else Some (VError ("Invalid endpoint URL: " ++ url))
  end.

#[global] Instance appwrite : AppwriteSdk := {
  setEndpoint_check := endpoint_check;
  setProject_check := fun _ => None;
  setKey_check := fun _ => None
}.

Definition process_env : ProcessEnv :=
  {| APPWRITE_ENDPOINT := Some "https://cloud.appwrite.io/v1";
     APPWRITE_PROJECT := Some "shop";
     APPWRITE_API_KEY := Some "key";
     APPWRITE_DATABASE_ID := Some "db";
     APPWRITE_ORDERS_COLLECTION_ID := Some "orders" |}.

(** The same configuration with APPWRITE_ENDPOINT left unset. *)
Definition process_env_without_endpoint : ProcessEnv :=
  {| APPWRITE_ENDPOINT := None;
     APPWRITE_PROJECT := Some "shop";
     APPWRITE_API_KEY := Some "key";
     APPWRITE_DATABASE_ID := Some "db";
     APPWRITE_ORDERS_COLLECTION_ID := Some "orders" |}.

Definition request : gmap string json :=
  <["name" := JStr "Ada"]>
  (<["email" := JStr "ada@example.org"]>
  (<["shippingAddress" := JObj [("city", JStr "London")]]>
  (<["orderDetails" := JArr [JObj [("sku", JStr "A1"); ("qty", JNum 2)]]]>
  (<["payment_method_nonce" := JStr "fake-valid-nonce"]>
  (<["amount" := JStr "10.00"]> ∅))))).

Definition env_of (sales : list (completion SaleResult))
           (creates : list (completion unit)) : state :=
  {| sale_outcomes := sales; create_outcomes := creates; clock := 1700000000000 |}.

Definition start (sales : list (completion SaleResult))
           (creates : list (completion unit)) : World state :=
  {| env := env_of sales creates; trace := []; responses := [] |}.

Definition approved : completion SaleResult :=
  Normal {| success := true;
            transaction := Some {| tx_id := "TX1"; tx_status := "submitted_for_settlement" |} |}.

Definition declined : completion SaleResult :=
  Normal {| success := false;
            transaction := Some {| tx_id := "TX2"; tx_status := "Declined" |} |}.

(** A service that is down until the clock reaches [t0 + 100]. *)
Definition recovering (s : state) : completion string * state :=
  if clock s <? 1700000000100 then (Throw (VError "ETIMEDOUT"), s)
  else (Normal "pong", s).

(** A service that is down for good. *)
Definition down (s : state) : completion string * state :=
  (Throw (VError "ETIMEDOUT"), s).

Definition idle : World state := start [] [].

(** The gateway refuses the first connection and would approve the second. *)
Definition flaky_gateway : World state := start [refused; approved] [Normal tt].

End Mock.

(** ** Vocabulary of the statements *)

(** [k] attempts in a row reject, each followed by the wait [D]; the
    environment goes from [s] to [s']. *)
Inductive failed_attempts {R : Type} `{Environment R} {T : Type}
          (run : R -> completion T * R) (D : Z) : nat -> R -> R -> Prop :=
| failed_none s : failed_attempts run D O s s
| failed_again k s e s1 s' :
    run s = (Throw e, s1) ->
    failed_attempts run D k (setTimeout_elapse D s1) s' ->
    failed_attempts run D (S k) s s'.

(** What a retry sequence leaves in the trace when [k] attempts fail and one
    more is made: attempt, wait, ..., attempt. *)
Fixpoint retry_trace (c : call) (D : Z) (k : nat) : list event :=
  match k with
  | O => [Invoke c]
  | S k' => Invoke c :: Timeout D :: retry_trace c D k'
  end.

(** The required fields of a request. *)
Definition required_fields : list string :=
  ["name"; "email"; "shippingAddress"; "orderDetails"; "payment_method_nonce"; "amount"].

(** A request passes validation when every required field is truthy. *)
Definition passes_validation (b : gmap string json) : bool :=
  forallb (fun f => truthy (of_field (b !! f))) required_fields.

(** The response of line 65. *)
Definition missing_required_fields : Response :=
  {| status := 400;
     body := [("ok", JBool false); ("message", JStr "Missing required fields")] |}.

(** [w] with one more response written and nothing else changed. *)
Definition responded {R} (w : World R) (r : Response) : World R :=
  Build_World (env w) (trace w) (responses w ++ [r]).

(** The sale request built from a request body. *)
Definition sale_of (b : gmap string json) : SaleRequest :=
  {| sale_amount := of_field (b !! "amount");
     sale_paymentMethodNonce := of_field (b !! "payment_method_nonce");
     sale_deviceData := of_field (b !! "deviceData");
     sale_submitForSettlement := true |}.

(** The identifier made from a clock reading and the radix-36 rendering of
    a random draw. *)
Definition order_id_of (now : Z) (random36 : string) : string :=
  toUpperCase (toString36 now ++ "-" ++ slice 2 7 random36).

(** The order built for a body and a charge result, stamped with an
    identifier and a creation time. *)
Definition order_of (b : gmap string json) (result : SaleResult)
           (orderId creationTime : string) : Order :=
  {| order_name := of_field (b !! "name");
     order_email := of_field (b !! "email");
     order_phone := of_field (b !! "phone");
     order_shippingAddress := of_field (b !! "shippingAddress");
     order_billingAddress := of_field (b !! "billingAddress");
     order_orderId := orderId;
     order_orderDetails := of_field (b !! "orderDetails");
     order_creationTime := creationTime;
     order_status := "Pending";
     order_transactionId := transaction_id result |}.

(** The document-create call for that order. *)
Definition create_of (process_env : ProcessEnv) (b : gmap string json)
           (result : SaleResult) (orderId creationTime : string) : CreateDocument :=
  {| doc_client :=
       {| client_endpoint := APPWRITE_ENDPOINT process_env;
          client_project := APPWRITE_PROJECT process_env;
          client_key := APPWRITE_API_KEY process_env |};
     doc_databaseId := APPWRITE_DATABASE_ID process_env;
     doc_collectionId := APPWRITE_ORDERS_COLLECTION_ID process_env;
     doc_documentId := orderId;
     doc_data := order_of b result orderId creationTime |}.

(** What configuring the client throws for a [process.env], if anything:
    the first setter, in the order endpoint, project, key, that refuses its
    value. *)
Definition configuration_error `{AppwriteSdk} (process_env : ProcessEnv) : option value :=
  match setEndpoint_check (APPWRITE_ENDPOINT process_env) with
  | Some error => Some error
  | None =>
      match setProject_check (APPWRITE_PROJECT process_env) with
      | Some error => Some error
      | None => setKey_check (APPWRITE_API_KEY process_env)
      end
  end.

(** ** The rest of the application *)

(** What [gateway.clientToken.generate] resolves to; the handler reads its
    [clientToken] and nothing else. *)
Record ClientTokenResponse : Type := {
  clientToken : value
}.

(** The token endpoint of the gateway, over the state of the environment. *)
Class TokenGateway (R : Type) : Type := {
  gateway_clientToken_generate : R -> completion ClientTokenResponse * R
}.

Section Application.

Context {R : Type} `{Environment R} `{TokenGateway R}.

(** GET /ping (lines 47-49) *)
Definition ping : M R unit :=
  res_json [("ok", VJson (JBool true)); ("message", VJson (JStr "pong"))].

(** GET /client_token (lines 51-59) *)
Definition client_token : M R unit :=
  try_catch
    (let* response :=
       retryAsync
         (perform (CallOther "gateway.clientToken.generate")
                  gateway_clientToken_generate)
         3 None in
     res_json [("ok", VJson (JBool true)); ("clientToken", clientToken response)])
    (fun err =>
       let* message := message_of err in
       res_status_json 500
         [("ok", VJson (JBool false));
          ("message", VJson (JStr "Error generating client token"));
          ("error", message)]).

End Application.

(** What a middleware does with a request: answer it, or hand it on. *)
Inductive middleware_result : Type :=
| SendStatus (code : Z)
| CallNext.

(** The CORS middleware (lines 10-19), on the request method and the headers
    set on [res] so far (header name to value; [res.header] overwrites). *)
Definition cors (method : string) (headers : gmap string string)
  : gmap string string * middleware_result :=
  let headers := <["Access-Control-Allow-Origin" := "*"]> headers in
  let headers := <["Access-Control-Allow-Methods" := "GET,POST,OPTIONS"]> headers in
  let headers := <["Access-Control-Allow-Headers" := "Content-Type"]> headers in
  if String.eqb method "OPTIONS" then (headers, SendStatus 200)
  else (headers, CallNext).

Inductive BraintreeEnvironment : Type :=
| Production
| Sandbox.

(** The gateway environment (lines 21-23), from [process.env.BRAINTREE_ENVIRONMENT]. *)
Definition environment (BRAINTREE_ENVIRONMENT : option string) : BraintreeEnvironment :=
  match BRAINTREE_ENVIRONMENT with
  | Some s => if String.eqb s "Production" then Production else Sandbox
  | None => Sandbox
  end.

(** [process.env.PORT || 3000] (line 135) *)
Definition PORT (env_PORT : option string) : value :=
  if truthy (of_string env_PORT) then of_string env_PORT else VJson (JNum 3000).

(** ** Reading an order identifier back

    [parseInt(s, 36)] on a string without leading blanks: an optional sign,
    then the longest run of radix-36 digits of either case; [None] is NaN.
    It is not in the source; it states what an identifier still tells. *)

Definition digit_value36 (c : ascii) : option Z :=
  let n := Z.of_nat (nat_of_ascii c) in
  if (48 <=? n) && (n <=? 57) then Some (n - 48)
  else if (97 <=? n) && (n <=? 122) then Some (n - 87)
  else if (65 <=? n) && (n <=? 90) then Some (n - 55)
  else None.

Fixpoint parse_digits36 (s : string) (acc : Z) : Z :=
  match s with
  | EmptyString => acc
  | String c rest =>
      match digit_value36 c with
      | Some d => parse_digits36 rest (acc * 36 + d)
      | None => acc
      end
  end.

Definition parse_unsigned36 (s : string) : option Z :=
  match s with
  | EmptyString => None
  | String c _ =>
      match digit_value36 c with
      | Some _ => Some (parse_digits36 s 0)
      | None => None
      end
  end.

Definition parseInt36 (s : string) : option Z :=
  match s with
  | String "-" rest => Z.opp <$> parse_unsigned36 rest
  | String "+" rest => parse_unsigned36 rest
  | _ => parse_unsigned36 s
  end.

(** ** A scripted token endpoint *)

Module TokenMock.

Record state : Type := {
  token_outcomes : list (completion ClientTokenResponse);
  clock : Z
}.

Definition generate (s : state) : completion ClientTokenResponse * state :=
  match token_outcomes s with
  | [] => (Throw (VError "connect ECONNREFUSED"), s)
  | o :: rest => (o, {| token_outcomes := rest; clock := clock s |})
  end.

Definition elapse (ms : Z) (s : state) : state :=
  {| token_outcomes := token_outcomes s; clock := clock s + ms |}.

#[global] Instance environment : Environment state := {
  gateway_transaction_sale := fun _ s => (Throw (VError "connect ECONNREFUSED"), s);
  database_createDocument := fun _ s => (Throw (VError "connect ECONNREFUSED"), s);
  Date_now := fun s => (clock s, s);
  Math_random := fun s => (0.5%float, s);
  Number_toString36 := fun _ => "0.i";
  setTimeout_elapse := elapse
}.

#[global] Instance gateway : TokenGateway state := {
  gateway_clientToken_generate := generate
}.

Definition start (tokens : list (completion ClientTokenResponse)) : World state :=
  {| env := {| token_outcomes := tokens; clock := 1700000000000 |};
     trace := []; responses := [] |}.

Definition token (s : string) : completion ClientTokenResponse :=
  Normal {| clientToken := VJson (JStr s) |}.

End TokenMock.

(** The scripted environment of [Mock] with a random draw of 0, which
    renders as "0" in radix 36. *)
Definition zero_random : Environment Mock.state := {|
  gateway_transaction_sale := Mock.sale;
  database_createDocument := Mock.createDocument;
  Date_now := fun s => (Mock.clock s, s);
  Math_random := fun s => (0%float, s);
  Number_toString36 := fun _ => "0";
  setTimeout_elapse := Mock.elapse
|}.

(** ** Built-ins on sample inputs *)

Example toString36_35 : toString36 35 = "z".
Proof. reflexivity. Qed.

Example toString36_epoch : toString36 1700000000000 = "loyw3v28".
Proof. vm_compute. reflexivity. Qed.

Example toUpperCase_mixed : toUpperCase "loyw3v28-4fzyo" = "LOYW3V28-4FZYO".
Proof. reflexivity. Qed.

Example slice_random : slice 2 7 "0.4fzyo82mvyr" = "4fzyo".
Proof. reflexivity. Qed.

Example slice_short : slice 2 7 "0.5" = "5".
Proof. reflexivity. Qed.

Example toISOString_epoch : toISOString 0 = "1970-01-01T00:00:00.000Z".
Proof. vm_compute. reflexivity. Qed.

Example toISOString_2023 :
  toISOString 1700000000123 = "2023-11-14T22:13:20.123Z".
Proof. vm_compute. reflexivity. Qed.

Example toISOString_leap_day :
  toISOString 1709164800000 = "2024-02-29T00:00:00.000Z".
Proof. vm_compute. reflexivity. Qed.

Example toISOString_before_epoch :
  toISOString (-1) = "1969-12-31T23:59:59.999Z".
Proof. vm_compute. reflexivity. Qed.

Example truthy_negative_zero : truthy (VJson (JNum (-0)%float)) = false.
Proof. reflexivity. Qed.

Example truthy_zero_string : truthy (VJson (JStr "0")) = true.
Proof. reflexivity. Qed.

(** The digit budget of [toString36] is never the reason [digits36] stops. *)
Lemma digits36_budget (fuel extra : nat) :
  forall n acc,
    0 <= n < 2 ^ Z.of_nat (S fuel) ->
    digits36 (S fuel + extra) n acc = digits36 (S fuel) n acc.
Proof.
  induction fuel as [|fuel IH]; intros n acc Hn.
  - simpl. assert (E : n / 36 = 0) by (apply Z.div_small; simpl in Hn; lia).
    rewrite E. reflexivity.
  - change (S (S fuel) + extra)%nat with (S (S fuel + extra)).
    cbn [digits36]. destruct (n / 36 =? 0); [reflexivity|].
    apply IH. split; [apply Z.div_pos; lia|].
    apply Z.div_lt_upper_bound; [lia|].
    replace (Z.of_nat (S (S fuel))) with (Z.succ (Z.of_nat (S fuel))) in Hn by lia.
    rewrite Z.pow_succ_r in Hn by lia. lia.
Qed.

Lemma toString36_budget (n : Z) (extra : nat) :
  digits36 (S (Z.to_nat (Z.log2 (Z.abs n))) + extra) (Z.abs n) ""
  = digits36 (S (Z.to_nat (Z.log2 (Z.abs n)))) (Z.abs n) "".
Proof.
  apply digits36_budget. split; [lia|].
  replace (Z.of_nat (S (Z.to_nat (Z.log2 (Z.abs n)))))
    with (Z.succ (Z.log2 (Z.abs n)))
    by (pose proof (Z.log2_nonneg (Z.abs n)); lia).
  destruct (Z.eq_dec (Z.abs n) 0) as [E|E].
  - rewrite E. reflexivity.
  - apply Z.log2_spec. lia.
Qed.

(** ** Properties of [retryAsync] *)

Section RetryProperties.

Context {R : Type} `{Environment R}.

Lemma count_retry_trace c D k : count_calls any_call (retry_trace c D k) = S k.
Proof. induction k as [|k IH]; simpl; [reflexivity | now rewrite IH]. Qed.

Lemma timeouts_retry_trace c D k : timeouts (retry_trace c D k) = repeat D k.
Proof. induction k as [|k IH]; simpl; [reflexivity | now rewrite IH]. Qed.

Lemma last_retry_trace c D k : last (retry_trace c D k) = Some (Invoke c).
Proof.
  induction k as [|k IH]; [reflexivity|].
  change (retry_trace c D (S k)) with ([Invoke c; Timeout D] ++ retry_trace c D k)%list.
  rewrite last_app, IH. reflexivity.
Qed.

Lemma count_retry_trace_create args D k :
  count_calls is_createDocument (retry_trace (CallCreateDocument args) D k) = S k
  /\ count_calls is_sale (retry_trace (CallCreateDocument args) D k) = O.
Proof. induction k as [|k [IH1 IH2]]; simpl; [split; reflexivity | now rewrite IH1, IH2]. Qed.

Lemma count_calls_app p t1 t2 :
  count_calls p (t1 ++ t2)%list = (count_calls p t1 + count_calls p t2)%nat.
Proof.
  induction t1 as [|[c|ms] t1 IH]; simpl; [reflexivity| |exact IH].
  destruct (p c); simpl; now rewrite IH.
Qed.

Section Loop.

Context {T : Type} (c : call) (run : R -> completion T * R).

Ltac step_run E := unfold bind, attempt, perform at 1; simpl; rewrite E; simpl.

(** One round of the loop, in state-passing form. *)
Lemma retry_loop_round (fn : M R T) (N D : Z) (b : nat) i lastError w :
  retry_loop fn N D (S b) i lastError w
  = if i <? N then
      match fn w with
      | (Normal v, w1) => (Normal v, w1)
      | (Throw e, w1) =>
          retry_loop fn N D b (i + 1) e
                     (if i <? N - 1 then (sleep D w1).2 else w1)
      end
    else (Throw lastError, w).
Proof.
  simpl. destruct (i <? N); [|reflexivity].
  unfold bind, attempt. destruct (fn w) as [[v|e] w1]; [reflexivity|].
  destruct (i <? N - 1); reflexivity.
Qed.

(** The loop test, not the unfolding budget, ends the loop: a larger budget
    changes nothing. *)
Lemma retry_loop_budget (fn : M R T) (N D : Z) (budget extra : nat) :
  forall i lastError w,
    N - i <= Z.of_nat budget ->
    retry_loop fn N D (budget + extra) i lastError w
    = retry_loop fn N D budget i lastError w.
Proof.
  induction budget as [|b IH]; intros i lastError w Hb; simpl.
  - destruct extra; simpl; [reflexivity|].
    destruct (Z.ltb_spec i N); [lia | reflexivity].
  - destruct (Z.ltb_spec i N); [|reflexivity].
    unfold bind, attempt. destruct (fn w) as [[v|e] w1]; [reflexivity|].
    destruct (i <? N - 1); simpl; apply IH; lia.
Qed.

(** After [k] failed attempts and their waits, the attempt that resolves is
    returned at once. *)
Lemma retry_loop_succeeds (N D : Z) (k : nat) :
  forall budget i lastError w sk v s',
    failed_attempts run D k (env w) sk ->
    run sk = (Normal v, s') ->
    i + Z.of_nat k < N ->
    (k < budget)%nat ->
    retry_loop (perform c run) N D budget i lastError w
    = (Normal v, Build_World s' (trace w ++ retry_trace c D k) (responses w)).
Proof.
  induction k as [|k IH]; intros budget i lastError w sk v s' Hf Hr Hi Hb;
    (destruct budget as [|b]; [lia|]); inversion Hf; subst; simpl.
  - destruct (Z.ltb_spec i N); [|lia]. step_run Hr. reflexivity.
  - destruct (Z.ltb_spec i N); [|lia].
    match goal with E : run (env w) = _ |- _ => step_run E end.
    destruct (Z.ltb_spec i (N - 1)); [|lia]. simpl.
    erewrite IH; [|simpl; eassumption|eassumption|lia|lia].
    simpl. rewrite <- !app_assoc. reflexivity.
Qed.

(** After [n] failed attempts and their waits, a further rejection at the
    last round is thrown as it is, with no wait after it. *)
Lemma retry_loop_exhausts (N D : Z) (n : nat) :
  forall budget i lastError w sn e s',
    failed_attempts run D n (env w) sn ->
    run sn = (Throw e, s') ->
    i + Z.of_nat n = N - 1 ->
    (n < budget)%nat ->
    retry_loop (perform c run) N D budget i lastError w
    = (Throw e, Build_World s' (trace w ++ retry_trace c D n) (responses w)).
Proof.
  induction n as [|n IH]; intros budget i lastError w sn e s' Hf Hr Hi Hb;
    (destruct budget as [|b]; [lia|]); inversion Hf; subst; simpl.
  - destruct (Z.ltb_spec i N); [|lia]. step_run Hr.
    destruct (Z.ltb_spec i (N - 1)); [lia|]. simpl.
    destruct b; simpl; [reflexivity|].
    destruct (Z.ltb_spec (i + 1) N); [lia | reflexivity].
  - destruct (Z.ltb_spec i N); [|lia].
    match goal with E : run (env w) = _ |- _ => step_run E end.
    destruct (Z.ltb_spec i (N - 1)); [|lia]. simpl.
    erewrite IH; [|simpl; eassumption|eassumption|lia|lia].
    simpl. rewrite <- !app_assoc. reflexivity.
Qed.

(** An operation that rejects in every state fails any number of times in a
    row. *)
Lemma always_failing_attempts (D : Z) :
  (forall s, exists e s', run s = (Throw e, s')) ->
  forall n s, exists sn, failed_attempts run D n s sn.
Proof.
  intros Hfail n. induction n as [|n IH]; intros s.
  - exists s. constructor.
  - destruct (Hfail s) as (e & s1 & E).
    destruct (IH (setTimeout_elapse D s1)) as (sn & Hn).
    exists sn. econstructor; eassumption.
Qed.

(** The shape of the trace of any retry sequence: at most [N - i] attempts,
    a wait between two attempts and none after the last; [res] is not
    touched. *)
Lemma retry_loop_trace (N D : Z) :
  forall budget i lastError w,
    i < N ->
    N - i <= Z.of_nat budget ->
    exists k,
      Z.of_nat k < N - i
      /\ trace (retry_loop (perform c run) N D budget i lastError w).2
         = (trace w ++ retry_trace c D k)%list
      /\ responses (retry_loop (perform c run) N D budget i lastError w).2
         = responses w.
Proof.
  induction budget as [|b IH]; intros i lastError w Hi Hb; [lia|].
  rewrite retry_loop_round.
  destruct (Z.ltb_spec i N); [|lia].
  unfold perform at 1 3. simpl.
  destruct (run (env w)) as [[v|e] s1]; simpl.
  - exists O. repeat split. lia.
  - destruct (Z.ltb_spec i (N - 1)); simpl.
    + edestruct (IH (i + 1) e) as (k & Hk & Ht & Hr);
        [| |exists (S k); rewrite Ht, Hr; simpl; rewrite <- !app_assoc;
            repeat split]; lia.
    + exists O. split; [lia|].
      destruct b; simpl; [split; reflexivity|].
      destruct (Z.ltb_spec (i + 1) N); [lia|split; reflexivity].
Qed.

Lemma retryAsync_succeeds (N D : Z) (k : nat) (w : World R) (sk s' : R) (v : T) :
  Z.of_nat k < N ->
  failed_attempts run D k (env w) sk ->
  run sk = (Normal v, s') ->
  retryAsync (perform c run) N (Some D) w
  = (Normal v, Build_World s' (trace w ++ retry_trace c D k) (responses w)).
Proof.
  intros Hk Hf Hr. unfold retryAsync. simpl.
  eapply retry_loop_succeeds; eauto; lia.
Qed.

Lemma retryAsync_exhausts (N D : Z) (w : World R) (sn s' : R) (e : value) :
  1 <= N ->
  failed_attempts run D (Z.to_nat (N - 1)) (env w) sn ->
  run sn = (Throw e, s') ->
  retryAsync (perform c run) N (Some D) w
  = (Throw e,
     Build_World s' (trace w ++ retry_trace c D (Z.to_nat (N - 1))) (responses w)).
Proof.
  intros HN Hf Hr. unfold retryAsync. simpl.
  eapply retry_loop_exhausts; eauto; lia.
Qed.

End Loop.

(** C2.  With at least one attempt allowed ([1 <= N]), an operation that
    rejects exactly [k < N] times (each rejection followed by the wait [D])
    and then resolves with [v]: [retryAsync] resolves with [v], the operation
    is invoked [k + 1] times, the waits are exactly [k] waits of [D], and the
    last event is the final attempt (no wait after it). *)
Theorem retryAsync_returns_first_success
        {T} (c : call) (run : R -> completion T * R)
        (N D : Z) (k : nat) (w : World R) (sk s' : R) (v : T) :
  1 <= N ->
  Z.of_nat k < N ->
  failed_attempts run D k (env w) sk ->
  run sk = (Normal v, s') ->
  retryAsync (perform c run) N (Some D) w
  = (Normal v, Build_World s' (trace w ++ retry_trace c D k) (responses w))
  /\ count_calls any_call (retry_trace c D k) = S k
  /\ timeouts (retry_trace c D k) = repeat D k
  /\ last (retry_trace c D k) = Some (Invoke c).
Proof.
  intros _ Hk Hf Hr. split; [|split; [|split]].
  - eapply retryAsync_succeeds; eassumption.
  - apply count_retry_trace.
  - apply timeouts_retry_trace.
  - apply last_retry_trace.
Qed.

(** C3.  With [1 <= N], an operation that rejects on every attempt is invoked
    exactly [N] times, with [N - 1] waits between the attempts, and
    [retryAsync] rejects with the very value [e] the last attempt rejected
    with. *)
Theorem retryAsync_propagates_last_failure
        {T} (c : call) (run : R -> completion T * R)
        (N D : Z) (w : World R) :
  1 <= N ->
  (forall s, exists e s', run s = (Throw e, s')) ->
  exists sn e s',
    failed_attempts run D (Z.to_nat (N - 1)) (env w) sn
    /\ run sn = (Throw e, s')
    /\ retryAsync (perform c run) N (Some D) w
       = (Throw e,
          Build_World s' (trace w ++ retry_trace c D (Z.to_nat (N - 1)))
                      (responses w))
    /\ Z.of_nat (count_calls any_call (retry_trace c D (Z.to_nat (N - 1)))) = N
    /\ timeouts (retry_trace c D (Z.to_nat (N - 1))) = repeat D (Z.to_nat (N - 1)).
Proof.
  intros HN Hfail.
  destruct (always_failing_attempts run D Hfail (Z.to_nat (N - 1)) (env w))
    as (sn & Hf).
  destruct (Hfail sn) as (e & s' & Hr).
  exists sn, e, s'. repeat split; try assumption.
  - eapply retryAsync_exhausts; eassumption.
  - rewrite count_retry_trace. lia.
  - apply timeouts_retry_trace.
Qed.

(** C9.  With [retries = 0] the loop body never runs: whatever the
    operation, the world is left as it was (no invocation, no wait) and the
    value thrown is [undefined], the initial [lastError]. *)
Theorem retryAsync_zero_retries_throws_undefined
        {T} (fn : M R T) (delay : option Z) (w : World R) :
  retryAsync fn 0 delay w = (Throw VUndefined, w)
  /\ count_calls any_call (trace (retryAsync fn 0 delay w).2)
     = count_calls any_call (trace w)
  /\ timeouts (trace (retryAsync fn 0 delay w).2) = timeouts (trace w).
Proof.
  assert (E : retryAsync fn 0 delay w = (Throw VUndefined, w)).
  { unfold retryAsync. change (Z.to_nat 0) with O. reflexivity. }
  rewrite E. repeat split.
Qed.

End RetryProperties.

(** ** Running the monad, one statement at a time *)

Section Running.

Context {R : Type} `{Environment R}.

Lemma bind_run {A B} (m : M R A) (k : A -> M R B) w a w' r :
  m w = (Normal a, w') -> k a w' = r -> bind m k w = r.
Proof. intros Hm Hk. unfold bind. rewrite Hm. exact Hk. Qed.

Lemma bind_throw {A B} (m : M R A) (k : A -> M R B) w e w' :
  m w = (Throw e, w') -> bind m k w = (Throw e, w').
Proof. intros Hm. unfold bind. rewrite Hm. reflexivity. Qed.

Lemma try_catch_normal {A} (m : M R A) (h : value -> M R A) w a w' :
  m w = (Normal a, w') -> try_catch m h w = (Normal a, w').
Proof. intros Hm. unfold try_catch. rewrite Hm. reflexivity. Qed.

Lemma try_catch_throw {A} (m : M R A) (h : value -> M R A) w e w' r :
  m w = (Throw e, w') -> h e w' = r -> try_catch m h w = r.
Proof. intros Hm Hh. unfold try_catch. rewrite Hm. exact Hh. Qed.

Lemma perform_run {T} (c : call) (run : R -> completion T * R) w r s' :
  run (env w) = (r, s') ->
  perform c run w = (r, Build_World s' (trace w ++ [Invoke c]) (responses w)).
Proof. intros Hr. unfold perform. rewrite Hr. reflexivity. Qed.

Lemma ask_run {A} (read : R -> A * R) w a s' :
  read (env w) = (a, s') ->
  ask read w = (Normal a, Build_World s' (trace w) (responses w)).
Proof. intros Hr. unfold ask. rewrite Hr. reflexivity. Qed.

Lemma generateOrderId_run w now random s2 s3 :
  Date_now (env w) = (now, s2) ->
  Math_random s2 = (random, s3) ->
  generateOrderId w
  = (Normal (toUpperCase (toString36 now ++ "-" ++ slice 2 7 (Number_toString36 random))),
     Build_World s3 (trace w) (responses w)).
Proof.
  intros Hnow Hrandom. unfold generateOrderId.
  eapply bind_run; [apply ask_run; eassumption|].
  eapply bind_run; [apply ask_run; eassumption|].
  reflexivity.
Qed.

(** No statement of the handler but a remote call or a wait touches the
    trace. *)
Lemma generateOrderId_trace w :
  trace (generateOrderId w).2 = trace w
  /\ responses (generateOrderId w).2 = responses w
  /\ exists id, (generateOrderId w).1 = Normal id.
Proof.
  unfold generateOrderId, bind, ask. simpl.
  destruct (Date_now (env w)) as [now s2]. simpl.
  destruct (Math_random s2) as [random s3]. simpl. eauto.
Qed.

End Running.

Section Configuring.

Context {R : Type} `{AppwriteSdk}.

(** Configuring the client throws what the first refusing setter throws, and
    otherwise gives the client holding the three values of [process.env]. *)
Lemma configure_client_run (process_env : ProcessEnv) (w : World R) :
  configure_client process_env w
  = match configuration_error process_env with
    | Some error => (Throw error, w)
    | None =>
        (Normal {| client_endpoint := APPWRITE_ENDPOINT process_env;
                   client_project := APPWRITE_PROJECT process_env;
                   client_key := APPWRITE_API_KEY process_env |}, w)
    end.
Proof.
  unfold configure_client, configuration_error, bind, settle,
    Client_setEndpoint, Client_setProject, Client_setKey.
  destruct (setEndpoint_check (APPWRITE_ENDPOINT process_env)); [reflexivity|].
  simpl.
  destruct (setProject_check (APPWRITE_PROJECT process_env)); [reflexivity|].
  simpl.
  destruct (setKey_check (APPWRITE_API_KEY process_env)); reflexivity.
Qed.

Lemma configuration_accepted (process_env : ProcessEnv) :
  setEndpoint_check (APPWRITE_ENDPOINT process_env) = None ->
  setProject_check (APPWRITE_PROJECT process_env) = None ->
  setKey_check (APPWRITE_API_KEY process_env) = None ->
  configuration_error process_env = None.
Proof.
  intros He Hp Hk. unfold configuration_error. rewrite He, Hp, Hk. reflexivity.
Qed.

End Configuring.

(** ** Properties of the /checkout handler *)

Section CheckoutProperties.

Context {R : Type} `{Environment R} `{AppwriteSdk}.
Variable process_env : ProcessEnv.

(** The handler's test of line 64 is the negation of [passes_validation]. *)
Lemma validation_test (b : gmap string json) :
  negb (truthy (of_field (b !! "name"))) || negb (truthy (of_field (b !! "email")))
  || negb (truthy (of_field (b !! "shippingAddress")))
  || negb (truthy (of_field (b !! "orderDetails")))
  || negb (truthy (of_field (b !! "payment_method_nonce")))
  || negb (truthy (of_field (b !! "amount")))
  = negb (passes_validation b).
Proof.
  unfold passes_validation, required_fields. simpl.
  repeat match goal with |- context [truthy ?v] => destruct (truthy v) end;
    reflexivity.
Qed.

(** A request that fails validation is answered 400 at once: the
    environment and the trace are left as they were. *)
Lemma checkout_rejects (b : gmap string json) (w : World R) :
  passes_validation b = false ->
  checkout process_env b w = (Normal tt, responded w missing_required_fields).
Proof.
  intros Hv. unfold checkout. cbv zeta.
  rewrite validation_test, Hv. reflexivity.
Qed.

(** One falsy required field is enough to fail validation. *)
Lemma falsy_field_fails_validation (b : gmap string json) (f : string) :
  In f required_fields ->
  truthy (of_field (b !! f)) = false ->
  passes_validation b = false.
Proof.
  intros Hin Hf. unfold passes_validation.
  apply not_true_is_false. intros Hall.
  rewrite forallb_forall in Hall. specialize (Hall f Hin). congruence.
Qed.

(** C4.  When any of the six required fields is absent from the request, the
    handler answers 400 "Missing required fields"; the environment and the
    trace are unchanged, so neither the sale nor the document-create call
    (nor any other) is made. *)
Theorem checkout_missing_field_rejected
        (b : gmap string json) (w : World R) (f : string) :
  In f required_fields ->
  b !! f = None ->
  checkout process_env b w
  = (Normal tt,
     Build_World (env w) (trace w)
                 (responses w ++
                  [{| status := 400;
                      body := [("ok", JBool false);
                               ("message", JStr "Missing required fields")] |}]))
  /\ count_calls any_call (trace (checkout process_env b w).2)
     = count_calls any_call (trace w).
Proof.
  intros Hin Hf.
  assert (E : checkout process_env b w
              = (Normal tt, responded w missing_required_fields)).
  { apply checkout_rejects. apply (falsy_field_fails_validation b f Hin).
    rewrite Hf. reflexivity. }
  rewrite E. split; reflexivity.
Qed.

(** C10.  An empty-string name or email, or an amount of 0 (either zero of
    the doubles), is falsy and is rejected exactly as an absent field is:
    400 "Missing required fields", environment and trace unchanged. *)
Theorem checkout_falsy_field_rejected
        (b : gmap string json) (w : World R) (x : float) :
  b !! "name" = Some (JStr "")
  \/ b !! "email" = Some (JStr "")
  \/ (b !! "amount" = Some (JNum x) /\ PrimFloat.eqb x 0%float = true) ->
  checkout process_env b w
  = (Normal tt,
     Build_World (env w) (trace w)
                 (responses w ++
                  [{| status := 400;
                      body := [("ok", JBool false);
                               ("message", JStr "Missing required fields")] |}]))
  /\ count_calls any_call (trace (checkout process_env b w).2)
     = count_calls any_call (trace w).
Proof.
  intros Hf.
  assert (E : checkout process_env b w
              = (Normal tt, responded w missing_required_fields)).
  { apply checkout_rejects.
    destruct Hf as [Hf|[Hf|[Hf Hx]]].
    - apply (falsy_field_fails_validation b "name"); [simpl; tauto|].
      rewrite Hf. reflexivity.
    - apply (falsy_field_fails_validation b "email"); [simpl; tauto|].
      rewrite Hf. reflexivity.
    - apply (falsy_field_fails_validation b "amount"); [simpl; tauto|].
      rewrite Hf. simpl. rewrite Hx. reflexivity. }
  rewrite E. split; reflexivity.
Qed.

(** Past validation, the handler starts with the sale: one remote call,
    recorded in the trace, settled by the environment. *)
Ltac enter_try Hv :=
  unfold checkout; cbv zeta; rewrite validation_test, Hv;
  change (negb true) with false; cbv iota.

Ltac run_sale b Hsale :=
  unfold try_catch at 1, bind at 1, perform at 1;
  fold (sale_of b); simpl env; rewrite Hsale.

(** The declined path: when the sale resolves with [success = false] and
    reports a transaction, the handler answers 400 with that transaction's
    status string as the message; the only remote call is the sale, no order
    is built and the document store is not called. *)
Theorem checkout_declined
        (b : gmap string json) (w : World R)
        (result : SaleResult) (t : Transaction) (s1 : R) :
  passes_validation b = true ->
  gateway_transaction_sale (sale_of b) (env w) = (Normal result, s1) ->
  success result = false ->
  transaction result = Some t ->
  checkout process_env b w
  = (Normal tt,
     Build_World s1 (trace w ++ [Invoke (CallSale (sale_of b))])
                 (responses w ++
                  [{| status := 400;
                      body := [("ok", JBool false); ("message", JStr (tx_status t))] |}]))
  /\ count_calls is_createDocument (trace (checkout process_env b w).2)
     = count_calls is_createDocument (trace w).
Proof.
  intros Hv Hsale Hs Ht.
  assert (E : checkout process_env b w
              = (Normal tt,
                 Build_World s1 (trace w ++ [Invoke (CallSale (sale_of b))])
                   (responses w ++
                    [{| status := 400;
                        body := [("ok", JBool false);
                                 ("message", JStr (tx_status t))] |}]))).
  { enter_try Hv. run_sale b Hsale. rewrite Hs.
    unfold transaction_status. rewrite Ht. reflexivity. }
  rewrite E. split; [reflexivity|].
  simpl. rewrite count_calls_app. simpl. lia.
Qed.

(** A failed sale that reports no transaction: reading its status throws,
    and the outer [catch] answers 500 with the TypeError's message. *)
Lemma checkout_failure_without_transaction
      (b : gmap string json) (w : World R) (result : SaleResult) (s1 : R) :
  passes_validation b = true ->
  gateway_transaction_sale (sale_of b) (env w) = (Normal result, s1) ->
  success result = false ->
  transaction result = None ->
  checkout process_env b w
  = (Normal tt,
     Build_World s1 (trace w ++ [Invoke (CallSale (sale_of b))])
                 (responses w ++
                  [{| status := 500;
                      body := [("ok", JBool false);
                               ("error",
                                JStr "Cannot read properties of undefined (reading 'status')")] |}])).
Proof.
  intros Hv Hsale Hs Ht.
  enter_try Hv. run_sale b Hsale. rewrite Hs.
  unfold transaction_status. rewrite Ht. reflexivity.
Qed.

(** A rejected sale whose error has a readable [message] property: the outer
    [catch] answers 500 with it. *)
Lemma checkout_sale_rejected
      (b : gmap string json) (w : World R) (e message : value) (s1 : R) :
  passes_validation b = true ->
  gateway_transaction_sale (sale_of b) (env w) = (Throw e, s1) ->
  read_message e = inl message ->
  checkout process_env b w
  = (Normal tt,
     Build_World s1 (trace w ++ [Invoke (CallSale (sale_of b))])
                 (responses w ++
                  [{| status := 500;
                      body := stringify_object
                                [("ok", VJson (JBool false)); ("error", message)] |}])).
Proof.
  intros Hv Hsale Hm.
  enter_try Hv. run_sale b Hsale.
  unfold bind, message_of. rewrite Hm. reflexivity.
Qed.

(** C8.  When the sale rejects with an error of message [msg], the handler
    completes normally having answered 500 [{ ok: false, error: msg }]; the
    sale is the only remote call, so no order is built or persisted. *)
Theorem checkout_charge_error
        (b : gmap string json) (w : World R) (msg : string) (s1 : R) :
  passes_validation b = true ->
  gateway_transaction_sale (sale_of b) (env w) = (Throw (VError msg), s1) ->
  checkout process_env b w
  = (Normal tt,
     Build_World s1 (trace w ++ [Invoke (CallSale (sale_of b))])
                 (responses w ++
                  [{| status := 500;
                      body := [("ok", JBool false); ("error", JStr msg)] |}]))
  /\ count_calls is_createDocument (trace (checkout process_env b w).2)
     = count_calls is_createDocument (trace w).
Proof.
  intros Hv Hsale.
  rewrite (checkout_sale_rejected b w (VError msg) (VJson (JStr msg)) s1 Hv Hsale eq_refl).
  split; [reflexivity|].
  simpl. rewrite count_calls_app. simpl. lia.
Qed.

(** The persistence [try] block of lines 96-118 for an order already
    stamped, as [checkout] runs it. *)
Ltac reach_persistence b Hv Hsale Hs Hnow Hrandom Hnow' :=
  enter_try Hv;
  eapply try_catch_normal;
  eapply bind_run; [apply perform_run; fold (sale_of b); eassumption|];
  rewrite Hs;
  eapply bind_run; [eapply generateOrderId_run; simpl env; eassumption|];
  eapply bind_run; [eapply ask_run; simpl env; eassumption|].

(** C6.  When the sale succeeds, the Appwrite client takes its configuration
    (so that persistence is attempted) and the document-create call rejects
    on each of its three attempts, the handler answers 500 with the
    contact-support message and the transaction id of the charge.  The
    remote calls are the one sale and the three create attempts: nothing
    refunds or voids the charge. *)
Theorem checkout_persistence_failed
        (b : gmap string json) (w : World R) (result : SaleResult)
        (s1 s2 s3 s4 s5 s6 : R) (now now' : Z) (random : float) (e : value) :
  passes_validation b = true ->
  gateway_transaction_sale (sale_of b) (env w) = (Normal result, s1) ->
  success result = true ->
  Date_now s1 = (now, s2) ->
  Math_random s2 = (random, s3) ->
  Date_now s3 = (now', s4) ->
  setEndpoint_check (APPWRITE_ENDPOINT process_env) = None ->
  setProject_check (APPWRITE_PROJECT process_env) = None ->
  setKey_check (APPWRITE_API_KEY process_env) = None ->
  let create :=
    create_of process_env b result
              (order_id_of now (Number_toString36 random)) (toISOString now') in
  failed_attempts (database_createDocument create) 1000 2 s4 s5 ->
  database_createDocument create s5 = (Throw e, s6) ->
  let calls :=
    Invoke (CallSale (sale_of b)) :: retry_trace (CallCreateDocument create) 1000 2 in
  checkout process_env b w
  = (Normal tt,
     Build_World s6 (trace w ++ calls)
       (responses w ++
        [{| status := 500;
            body := stringify_object
              [("ok", VJson (JBool false));
               ("message",
                VJson (JStr "Payment processed but order creation failed. Please contact support."));
               ("transactionId", of_string (transaction_id result))] |}]))
  /\ count_calls is_sale calls = 1%nat
  /\ count_calls is_createDocument calls = 3%nat
  /\ count_calls any_call calls = 4%nat.
Proof.
  intros Hv Hsale Hs Hnow Hrandom Hnow' Hep Hpr Hkey create Hf He calls.
  split; [|repeat split].
  reach_persistence b Hv Hsale Hs Hnow Hrandom Hnow'.
  eapply try_catch_throw.
  - eapply bind_run;
      [rewrite configure_client_run,
         (configuration_accepted process_env Hep Hpr Hkey); reflexivity|].
    eapply bind_throw.
    change (retryAsync ?f 3 None) with (retryAsync f 3 (Some 1000)).
    eapply (retryAsync_exhausts _ _ 3 1000); [lia|exact Hf|exact He].
  - unfold res_status_json, calls. simpl. rewrite <- !app_assoc. reflexivity.
Qed.

(** C7.  When the sale succeeds, the Appwrite client takes its configuration
    and the document-create call resolves within its three attempts (that
    is, persistence succeeds), the handler answers 200 [{ ok: true, orderId,
    transactionId }]: [orderId] is the identifier just generated and
    [transactionId] the charge's.  The order handed to the document store
    has status "Pending", the ISO rendering of the clock read at creation as
    [creationTime], that same transaction id, and is stored under
    [orderId]. *)
Theorem checkout_success
        (b : gmap string json) (w : World R) (result : SaleResult)
        (s1 s2 s3 s4 s5 s6 : R) (now now' : Z) (random : float) (k : nat) :
  passes_validation b = true ->
  gateway_transaction_sale (sale_of b) (env w) = (Normal result, s1) ->
  success result = true ->
  Date_now s1 = (now, s2) ->
  Math_random s2 = (random, s3) ->
  Date_now s3 = (now', s4) ->
  setEndpoint_check (APPWRITE_ENDPOINT process_env) = None ->
  setProject_check (APPWRITE_PROJECT process_env) = None ->
  setKey_check (APPWRITE_API_KEY process_env) = None ->
  let orderId := order_id_of now (Number_toString36 random) in
  let create := create_of process_env b result orderId (toISOString now') in
  (k < 3)%nat ->
  failed_attempts (database_createDocument create) 1000 k s4 s5 ->
  database_createDocument create s5 = (Normal tt, s6) ->
  checkout process_env b w
  = (Normal tt,
     Build_World s6
       (trace w ++ Invoke (CallSale (sale_of b))
                :: retry_trace (CallCreateDocument create) 1000 k)
       (responses w ++
        [{| status := 200;
            body := stringify_object
              [("ok", VJson (JBool true));
               ("orderId", VJson (JStr orderId));
               ("transactionId", of_string (transaction_id result))] |}]))
  /\ doc_documentId create = orderId
  /\ order_orderId (doc_data create) = orderId
  /\ order_status (doc_data create) = "Pending"
  /\ order_creationTime (doc_data create) = toISOString now'
  /\ order_transactionId (doc_data create) = tx_id <$> transaction result.
Proof.
  intros Hv Hsale Hs Hnow Hrandom Hnow' Hep Hpr Hkey orderId create Hk Hf Hr.
  split; [|repeat split].
  reach_persistence b Hv Hsale Hs Hnow Hrandom Hnow'.
  eapply try_catch_normal.
  eapply bind_run;
    [rewrite configure_client_run,
       (configuration_accepted process_env Hep Hpr Hkey); reflexivity|].
  eapply bind_run.
  - change (retryAsync ?f 3 None) with (retryAsync f 3 (Some 1000)).
    eapply (retryAsync_succeeds _ _ 3 1000 k); [lia|exact Hf|exact Hr].
  - unfold res_json, res_status_json. simpl. rewrite <- !app_assoc. reflexivity.
Qed.

(** C1, as the code has it.  Past validation the sale is called directly,
    once: the first new event of the trace is the sale, and nothing after it
    is a sale.  What follows is nothing at all, or one retry sequence of the
    document-create call under the policy of 3 attempts 1000 ms apart. *)
Theorem checkout_charges_once
        (b : gmap string json) (w : World R) :
  passes_validation b = true ->
  exists rest,
    trace (checkout process_env b w).2
    = (trace w ++ Invoke (CallSale (sale_of b)) :: rest)%list
    /\ count_calls is_sale rest = O
    /\ (rest = []
        \/ exists create k,
             (k < 3)%nat /\ rest = retry_trace (CallCreateDocument create) 1000 k).
Proof.
  intros Hv. enter_try Hv.
  unfold try_catch at 1, bind at 1, perform at 1. fold (sale_of b).
  destruct (gateway_transaction_sale (sale_of b) (env w)) as [[result|e] s1].
  - destruct (success result).
    + unfold bind at 1.
      match goal with
      | |- context [generateOrderId ?w1] =>
          destruct (generateOrderId_trace w1) as (Ht & _ & id & Hid);
          destruct (generateOrderId w1) as [c w2]; simpl in Ht, Hid; subst c
      end.
      unfold bind at 1, ask at 1. destruct (Date_now (env w2)) as [now' s4].
      unfold try_catch at 1, bind at 1. rewrite configure_client_run.
      destruct (configuration_error process_env) as [refused|];
        [simpl; rewrite Ht; exists []; simpl; auto|].
      unfold bind at 1.
      match goal with
      | |- context [retryAsync (perform ?c ?run) 3 None ?w3] =>
          destruct (retry_loop_trace c run 3 1000 3 0 VUndefined w3)
            as (k & Hk & Hk1 & _); [lia|simpl; lia|];
          change (retry_loop (perform c run) 3 1000 3 0 VUndefined w3)
            with (retryAsync (perform c run) 3 None w3) in Hk1;
          destruct (retryAsync (perform c run) 3 None w3) as [[[]|e] w4];
          simpl in Hk1; simpl; rewrite Hk1, Ht; simpl; rewrite <- !app_assoc;
          (eexists; split; [reflexivity|]; split;
           [apply count_retry_trace_create
           |right; eexists _, k; split; [lia|reflexivity]])
      end.
    + unfold bind at 1, transaction_status.
      destruct (transaction result); simpl; exists []; simpl; auto.
  - unfold bind, message_of.
    destruct (read_message e); simpl; exists []; simpl; auto.
Qed.

End CheckoutProperties.

(** ** The statements at the scripted environment *)

Lemma retryAsync_returns_first_success_witness :
  retryAsync (perform (CallOther "ping") Mock.recovering) 3 (Some 50) Mock.idle
  = (Normal "pong",
     Build_World (Mock.elapse 50 (Mock.elapse 50 (env Mock.idle)))
       (trace Mock.idle ++ retry_trace (CallOther "ping") 50 2) (responses Mock.idle))
  /\ count_calls any_call (retry_trace (CallOther "ping") 50 2) = 3%nat
  /\ timeouts (retry_trace (CallOther "ping") 50 2) = repeat 50 2
  /\ last (retry_trace (CallOther "ping") 50 2) = Some (Invoke (CallOther "ping")).
Proof.
  apply (retryAsync_returns_first_success
           (CallOther "ping") Mock.recovering 3 50 2 Mock.idle
           (Mock.elapse 50 (Mock.elapse 50 (env Mock.idle)))
           (Mock.elapse 50 (Mock.elapse 50 (env Mock.idle))) "pong").
  - lia.
  - lia.
  - eapply failed_again; [reflexivity|].
    eapply failed_again; [reflexivity|].
    apply failed_none.
  - reflexivity.
Defined.

Lemma retryAsync_propagates_last_failure_witness :
  exists sn e s',
    failed_attempts Mock.down 50 (Z.to_nat (3 - 1)) (env Mock.idle) sn
    /\ Mock.down sn = (Throw e, s')
    /\ retryAsync (perform (CallOther "ping") Mock.down) 3 (Some 50) Mock.idle
       = (Throw e,
          Build_World s' (trace Mock.idle
                          ++ retry_trace (CallOther "ping") 50 (Z.to_nat (3 - 1)))
                      (responses Mock.idle))
    /\ Z.of_nat (count_calls any_call
                   (retry_trace (CallOther "ping") 50 (Z.to_nat (3 - 1)))) = 3
    /\ timeouts (retry_trace (CallOther "ping") 50 (Z.to_nat (3 - 1)))
       = repeat 50 (Z.to_nat (3 - 1)).
Proof.
  apply (retryAsync_propagates_last_failure
           (CallOther "ping") Mock.down 3 50 Mock.idle).
  - lia.
  - intros s. exists (VError "ETIMEDOUT"), s. reflexivity.
Defined.

Lemma checkout_missing_field_rejected_witness :
  checkout Mock.process_env (delete "amount" Mock.request) Mock.idle
  = (Normal tt,
     Build_World (env Mock.idle) (trace Mock.idle)
       (responses Mock.idle ++
        [{| status := 400;
            body := [("ok", JBool false);
                     ("message", JStr "Missing required fields")] |}]))
  /\ count_calls any_call
       (trace (checkout Mock.process_env (delete "amount" Mock.request) Mock.idle).2)
     = count_calls any_call (trace Mock.idle).
Proof.
  apply (checkout_missing_field_rejected
           Mock.process_env (delete "amount" Mock.request) Mock.idle "amount").
  - simpl. tauto.
  - vm_compute. reflexivity.
Defined.

Lemma checkout_falsy_field_rejected_witness :
  checkout Mock.process_env (<["amount" := JNum 0]> Mock.request) Mock.idle
  = (Normal tt,
     Build_World (env Mock.idle) (trace Mock.idle)
       (responses Mock.idle ++
        [{| status := 400;
            body := [("ok", JBool false);
                     ("message", JStr "Missing required fields")] |}]))
  /\ count_calls any_call
       (trace (checkout Mock.process_env (<["amount" := JNum 0]> Mock.request) Mock.idle).2)
     = count_calls any_call (trace Mock.idle).
Proof.
  apply (checkout_falsy_field_rejected
           Mock.process_env (<["amount" := JNum 0]> Mock.request) Mock.idle 0%float).
  right. right. split; vm_compute; reflexivity.
Defined.

Lemma checkout_declined_witness :
  checkout Mock.process_env Mock.request (Mock.start [Mock.declined] [])
  = (Normal tt,
     Build_World (env Mock.idle)
       (trace Mock.idle ++ [Invoke (CallSale (sale_of Mock.request))])
       (responses Mock.idle ++
        [{| status := 400;
            body := [("ok", JBool false); ("message", JStr "Declined")] |}]))
  /\ count_calls is_createDocument
       (trace (checkout Mock.process_env Mock.request (Mock.start [Mock.declined] [])).2)
     = O.
Proof.
  apply (checkout_declined
           Mock.process_env Mock.request (Mock.start [Mock.declined] [])
           {| success := false;
              transaction := Some {| tx_id := "TX2"; tx_status := "Declined" |} |}
           {| tx_id := "TX2"; tx_status := "Declined" |}
           (env Mock.idle)).
  - vm_compute. reflexivity.
  - reflexivity.
  - reflexivity.
  - reflexivity.
Defined.

Lemma checkout_charge_error_witness :
  checkout Mock.process_env Mock.request Mock.idle
  = (Normal tt,
     Build_World (env Mock.idle)
       (trace Mock.idle ++ [Invoke (CallSale (sale_of Mock.request))])
       (responses Mock.idle ++
        [{| status := 500;
            body := [("ok", JBool false); ("error", JStr "connect ECONNREFUSED")] |}]))
  /\ count_calls is_createDocument
       (trace (checkout Mock.process_env Mock.request Mock.idle).2)
     = O.
Proof.
  apply (checkout_charge_error
           Mock.process_env Mock.request Mock.idle "connect ECONNREFUSED"
           (env Mock.idle)).
  - vm_compute. reflexivity.
  - reflexivity.
Defined.

Lemma checkout_persistence_failed_witness :
  (checkout Mock.process_env Mock.request (Mock.start [Mock.approved] [])).1 = Normal tt
  /\ responses (checkout Mock.process_env Mock.request (Mock.start [Mock.approved] [])).2
     = [{| status := 500;
           body := [("ok", JBool false);
                    ("message",
                     JStr "Payment processed but order creation failed. Please contact support.");
                    ("transactionId", JStr "TX1")] |}]
  /\ count_calls is_sale
       (trace (checkout Mock.process_env Mock.request (Mock.start [Mock.approved] [])).2)
     = 1%nat
  /\ count_calls is_createDocument
       (trace (checkout Mock.process_env Mock.request (Mock.start [Mock.approved] [])).2)
     = 3%nat.
Proof.
  destruct (checkout_persistence_failed
              Mock.process_env Mock.request (Mock.start [Mock.approved] [])
              {| success := true;
                 transaction :=
                   Some {| tx_id := "TX1"; tx_status := "submitted_for_settlement" |} |}
              (env Mock.idle) (env Mock.idle) (env Mock.idle) (env Mock.idle)
              (Mock.elapse 1000 (Mock.elapse 1000 (env Mock.idle)))
              (Mock.elapse 1000 (Mock.elapse 1000 (env Mock.idle)))
              1700000000000 1700000000000 0.5%float
              (VError "connect ECONNREFUSED")) as (E & _).
  - vm_compute. reflexivity.
  - reflexivity.
  - reflexivity.
  - reflexivity.
  - reflexivity.
  - reflexivity.
  - reflexivity.
  - reflexivity.
  - reflexivity.
  - eapply failed_again; [reflexivity|].
    eapply failed_again; [reflexivity|].
    apply failed_none.
  - reflexivity.
  - rewrite E. vm_compute. repeat split; reflexivity.
Defined.

Lemma checkout_success_witness :
  checkout Mock.process_env Mock.request
           (Mock.start [Mock.approved] [Mock.refused; Normal tt])
  = (Normal tt,
     Build_World (Mock.elapse 1000 (env Mock.idle))
       (trace Mock.idle
        ++ Invoke (CallSale (sale_of Mock.request))
           :: retry_trace
                (CallCreateDocument
                   (create_of Mock.process_env Mock.request
                      {| success := true;
                         transaction :=
                           Some {| tx_id := "TX1";
                                   tx_status := "submitted_for_settlement" |} |}
                      "LOYW3V28-I" "2023-11-14T22:13:20.000Z")) 1000 1)
       [{| status := 200;
           body := [("ok", JBool true); ("orderId", JStr "LOYW3V28-I");
                    ("transactionId", JStr "TX1")] |}]).
Proof.
  destruct (checkout_success
              Mock.process_env Mock.request
              (Mock.start [Mock.approved] [Mock.refused; Normal tt])
              {| success := true;
                 transaction :=
                   Some {| tx_id := "TX1"; tx_status := "submitted_for_settlement" |} |}
              (Mock.env_of [] [Mock.refused; Normal tt])
              (Mock.env_of [] [Mock.refused; Normal tt])
              (Mock.env_of [] [Mock.refused; Normal tt])
              (Mock.env_of [] [Mock.refused; Normal tt])
              (Mock.elapse 1000 (Mock.env_of [] [Normal tt]))
              (Mock.elapse 1000 (env Mock.idle))
              1700000000000 1700000000000 0.5%float 1%nat) as (E & _).
  - vm_compute. reflexivity.
  - reflexivity.
  - reflexivity.
  - reflexivity.
  - reflexivity.
  - reflexivity.
  - reflexivity.
  - reflexivity.
  - reflexivity.
  - lia.
  - eapply failed_again; [reflexivity|]. apply failed_none.
  - reflexivity.
  - rewrite E. vm_compute. reflexivity.
Defined.

Lemma checkout_charges_once_witness :
  exists rest,
    trace (checkout Mock.process_env Mock.request Mock.flaky_gateway).2
    = (trace Mock.flaky_gateway ++ Invoke (CallSale (sale_of Mock.request)) :: rest)%list
    /\ count_calls is_sale rest = O
    /\ (rest = []
        \/ exists create k,
             (k < 3)%nat /\ rest = retry_trace (CallCreateDocument create) 1000 k).
Proof.
  apply (checkout_charges_once Mock.process_env Mock.request Mock.flaky_gateway).
  vm_compute. reflexivity.
Defined.

(** C1 does not hold where the gateway refuses the first connection and
    would approve the second.  The handler makes the one sale call and
    answers 500; with the sale under [retryAsync _ 3], as the specification
    words it, there are two sale calls and the answer is 200. *)
Lemma checkout_charge_not_retried :
  count_calls is_sale
    (trace (checkout Mock.process_env Mock.request Mock.flaky_gateway).2) = 1%nat
  /\ timeouts (trace (checkout Mock.process_env Mock.request Mock.flaky_gateway).2) = []
  /\ List.map status
       (responses (checkout Mock.process_env Mock.request Mock.flaky_gateway).2) = [500]
  /\ count_calls is_sale
       (trace (checkout_as_specified Mock.process_env Mock.request Mock.flaky_gateway).2)
     = 2%nat
  /\ List.map status
       (responses
          (checkout_as_specified Mock.process_env Mock.request Mock.flaky_gateway).2)
     = [200]
  /\ checkout Mock.process_env Mock.request Mock.flaky_gateway
     <> checkout_as_specified Mock.process_env Mock.request Mock.flaky_gateway.
Proof.
  repeat split; try (vm_compute; reflexivity).
  intros E.
  apply (f_equal (fun r => List.map status (responses r.2))) in E.
  vm_compute in E. discriminate E.
Qed.

(** ** More on [retryAsync] *)

Section RetryOutcome.

Context {R : Type} `{Environment R}.
Context {T : Type} (c : call) (run : R -> completion T * R).

(** Every run of the loop from round [i < N] ends with some attempt [k]
    rounds later, and settles as that attempt did; a rejection is only let
    through at the last round. *)
Lemma retry_loop_outcome (N D : Z) :
  forall budget i lastError w,
    i < N ->
    N - i <= Z.of_nat budget ->
    exists k sk r s',
      i + Z.of_nat k < N
      /\ failed_attempts run D k (env w) sk
      /\ run sk = (r, s')
      /\ retry_loop (perform c run) N D budget i lastError w
         = (r, Build_World s' (trace w ++ retry_trace c D k) (responses w))
      /\ (forall e, r = Throw e -> i + Z.of_nat k = N - 1).
Proof.
  induction budget as [|b IH]; intros i lastError w Hi Hb; [lia|].
  rewrite retry_loop_round.
  destruct (Z.ltb_spec i N); [|lia].
  unfold perform at 1.
  destruct (run (env w)) as [[v|e] s1] eqn:E.
  - exists O, (env w), (Normal v), s1.
    split; [lia|]. split; [apply failed_none|]. split; [exact E|].
    split; [reflexivity|discriminate].
  - destruct (Z.ltb_spec i (N - 1)).
    + destruct (IH (i + 1) e
                  (sleep D (Build_World s1 (trace w ++ [Invoke c]) (responses w))).2)
        as (k & sk & r & s' & Hk & Hf & Hr & Hl & Hlast); [lia|lia|].
      exists (S k), sk, r, s'.
      split; [lia|]. split; [econstructor; [exact E|exact Hf]|].
      split; [exact Hr|]. split.
      * rewrite Hl. simpl. rewrite <- !app_assoc. reflexivity.
      * intros e' He'. specialize (Hlast e' He'). lia.
    + exists O, (env w), (Throw e), s1.
      split; [lia|]. split; [apply failed_none|]. split; [exact E|].
      split; [|intros; lia].
      destruct b; simpl; [reflexivity|].
      destruct (Z.ltb_spec (i + 1) N); [lia|reflexivity].
Qed.

Lemma retryAsync_outcome (N D : Z) (w : World R) :
  1 <= N ->
  exists k sk r s',
    Z.of_nat k < N
    /\ failed_attempts run D k (env w) sk
    /\ run sk = (r, s')
    /\ retryAsync (perform c run) N (Some D) w
       = (r, Build_World s' (trace w ++ retry_trace c D k) (responses w))
    /\ (forall e, r = Throw e -> Z.of_nat k = N - 1).
Proof.
  intros HN. unfold retryAsync. simpl.
  destruct (retry_loop_outcome N D (Z.to_nat N) 0 VUndefined w)
    as (k & sk & r & s' & Hk & Hf & Hr & Hl & Hlast); [lia|lia|].
  exists k, sk, r, s'.
  split; [lia|]. split; [exact Hf|]. split; [exact Hr|]. split; [exact Hl|].
  intros e He. specialize (Hlast e He). lia.
Qed.

Lemma retryAsync_not_entered (fn : M R T) (N : Z) (delay : option Z) (w : World R) :
  N <= 0 -> retryAsync fn N delay w = (Throw VUndefined, w).
Proof.
  intros HN. unfold retryAsync.
  replace (Z.to_nat N) with O by lia. reflexivity.
Qed.

End RetryOutcome.

Section RetryExtras.

Context {R : Type} `{Environment R}.

(** X1.  With [1 <= N], whatever the operation does, [retryAsync] settles
    exactly as its last attempt did, after at most [N] attempts: the trace
    is attempt, wait, ..., attempt with [k + 1 <= N] attempts, the first [k]
    of which rejected; a rejection comes out only when all [N] attempts were
    used. *)
Theorem retryAsync_settles_as_last_attempt
        {T} (c : call) (run : R -> completion T * R) (N D : Z) (w : World R) :
  1 <= N ->
  exists k sk r s',
    Z.of_nat k < N
    /\ failed_attempts run D k (env w) sk
    /\ run sk = (r, s')
    /\ retryAsync (perform c run) N (Some D) w
       = (r, Build_World s' (trace w ++ retry_trace c D k) (responses w))
    /\ (forall e, r = Throw e -> Z.of_nat k = N - 1).
Proof. intros HN. apply retryAsync_outcome. exact HN. Qed.

(** X2.  A zero or negative attempt count never enters the loop: nothing is
    invoked, nothing is waited for, and [undefined] is thrown, whatever the
    operation and the delay. *)
Theorem retryAsync_nonpositive_retries
        {T} (fn : M R T) (N : Z) (delay : option Z) (w : World R) :
  N <= 0 ->
  retryAsync fn N delay w = (Throw VUndefined, w).
Proof. intros HN. apply retryAsync_not_entered. exact HN. Qed.

End RetryExtras.

Lemma retryAsync_settles_as_last_attempt_witness :
  exists k sk r s',
    Z.of_nat k < 3
    /\ failed_attempts Mock.recovering 50 k (env Mock.idle) sk
    /\ Mock.recovering sk = (r, s')
    /\ retryAsync (perform (CallOther "ping") Mock.recovering) 3 (Some 50) Mock.idle
       = (r, Build_World s' (trace Mock.idle ++ retry_trace (CallOther "ping") 50 k)
                         (responses Mock.idle))
    /\ (forall e, r = Throw e -> Z.of_nat k = 3 - 1).
Proof.
  apply (retryAsync_settles_as_last_attempt
           (CallOther "ping") Mock.recovering 3 50 Mock.idle).
  lia.
Defined.

Lemma retryAsync_nonpositive_retries_witness :
  retryAsync (perform (CallOther "ping") Mock.recovering) (-2) (Some 50) Mock.idle
  = (Throw VUndefined, Mock.idle).
Proof.
  apply (retryAsync_nonpositive_retries
           (perform (CallOther "ping") Mock.recovering) (-2) (Some 50) Mock.idle).
  lia.
Defined.

(** ** Properties of the /client_token handler *)

Section ClientTokenProperties.

Context {R : Type} `{Environment R} `{TokenGateway R}.

Lemma client_token_resolved (w : World R) (k : nat) (sk s' : R)
      (response : ClientTokenResponse) :
  (k < 3)%nat ->
  failed_attempts gateway_clientToken_generate 1000 k (env w) sk ->
  gateway_clientToken_generate sk = (Normal response, s') ->
  client_token w
  = (Normal tt,
     Build_World s'
       (trace w ++ retry_trace (CallOther "gateway.clientToken.generate") 1000 k)
       (responses w ++
        [{| status := 200;
            body := stringify_object
                      [("ok", VJson (JBool true));
                       ("clientToken", clientToken response)] |}])).
Proof.
  intros Hk Hf Hr. unfold client_token.
  eapply try_catch_normal. eapply bind_run.
  - change (retryAsync ?f 3 None) with (retryAsync f 3 (Some 1000)).
    eapply (retryAsync_succeeds _ _ 3 1000 k); [lia|exact Hf|exact Hr].
  - reflexivity.
Qed.

Lemma client_token_rejected (w : World R) (sk s' : R) (e : value) :
  failed_attempts gateway_clientToken_generate 1000 2 (env w) sk ->
  gateway_clientToken_generate sk = (Throw e, s') ->
  client_token w
  = bind (message_of e)
         (fun message =>
            res_status_json 500
              [("ok", VJson (JBool false));
               ("message", VJson (JStr "Error generating client token"));
               ("error", message)])
         (Build_World s'
            (trace w ++ retry_trace (CallOther "gateway.clientToken.generate") 1000 2)
            (responses w)).
Proof.
  intros Hf Hr. unfold client_token.
  eapply try_catch_throw.
  - eapply bind_throw.
    change (retryAsync ?f 3 None) with (retryAsync f 3 (Some 1000)).
    eapply (retryAsync_exhausts _ _ 3 1000); [lia|exact Hf|exact Hr].
  - reflexivity.
Qed.

(** X3.  When token generation resolves within its three attempts, the
    handler answers 200 [{ ok: true, clientToken }] with the token of the
    response; the only remote calls are the [k + 1] generation attempts. *)
Theorem client_token_answers_token
        (w : World R) (k : nat) (sk s' : R) (response : ClientTokenResponse) :
  (k < 3)%nat ->
  failed_attempts gateway_clientToken_generate 1000 k (env w) sk ->
  gateway_clientToken_generate sk = (Normal response, s') ->
  client_token w
  = (Normal tt,
     Build_World s'
       (trace w ++ retry_trace (CallOther "gateway.clientToken.generate") 1000 k)
       (responses w ++
        [{| status := 200;
            body := stringify_object
                      [("ok", VJson (JBool true));
                       ("clientToken", clientToken response)] |}])).
Proof. apply client_token_resolved. Qed.

(** X4.  When all three generation attempts reject, the last with an error of
    message [msg], the handler answers 500 with the fixed message "Error
    generating client token" and [error: msg], after three attempts and two
    waits of 1000 ms. *)
Theorem client_token_gives_up_after_three
        (w : World R) (sk s' : R) (msg : string) :
  failed_attempts gateway_clientToken_generate 1000 2 (env w) sk ->
  gateway_clientToken_generate sk = (Throw (VError msg), s') ->
  client_token w
  = (Normal tt,
     Build_World s'
       (trace w ++ retry_trace (CallOther "gateway.clientToken.generate") 1000 2)
       (responses w ++
        [{| status := 500;
            body := [("ok", JBool false);
                     ("message", JStr "Error generating client token");
                     ("error", JStr msg)] |}]))
  /\ count_calls any_call
       (retry_trace (CallOther "gateway.clientToken.generate") 1000 2) = 3%nat
  /\ timeouts (retry_trace (CallOther "gateway.clientToken.generate") 1000 2)
     = [1000; 1000].
Proof.
  intros Hf Hr. split; [|split; reflexivity].
  rewrite (client_token_rejected w sk s' (VError msg) Hf Hr). reflexivity.
Qed.

(** X5.  When the response that generation resolves with carries no
    [clientToken], the handler still answers 200, and the body is just
    [{ ok: true }]: the handler does not look at anything else. *)
Theorem client_token_ok_without_token
        (w : World R) (k : nat) (sk s' : R) (response : ClientTokenResponse) :
  (k < 3)%nat ->
  failed_attempts gateway_clientToken_generate 1000 k (env w) sk ->
  gateway_clientToken_generate sk = (Normal response, s') ->
  clientToken response = VUndefined ->
  client_token w
  = (Normal tt,
     Build_World s'
       (trace w ++ retry_trace (CallOther "gateway.clientToken.generate") 1000 k)
       (responses w ++ [{| status := 200; body := [("ok", JBool true)] |}])).
Proof.
  intros Hk Hf Hr Hu.
  rewrite (client_token_resolved w k sk s' response Hk Hf Hr), Hu. reflexivity.
Qed.

(** X6.  When the third attempt rejects with [undefined] or [null], reading
    [err.message] in the [catch] block throws: the handler itself rejects
    with a TypeError and no response is written. *)
Theorem client_token_nullish_rejection_escapes
        (w : World R) (sk s' : R) (e : value) :
  failed_attempts gateway_clientToken_generate 1000 2 (env w) sk ->
  gateway_clientToken_generate sk = (Throw e, s') ->
  e = VUndefined \/ e = VJson JNull ->
  exists msg,
    client_token w
    = (Throw (VError msg),
       Build_World s'
         (trace w ++ retry_trace (CallOther "gateway.clientToken.generate") 1000 2)
         (responses w)).
Proof.
  intros Hf Hr He.
  rewrite (client_token_rejected w sk s' e Hf Hr).
  destruct He; subst e; eexists; reflexivity.
Qed.

(** X7.  In every world the handler makes between one and three generation
    attempts, 1000 ms apart, and no other remote call; it calls neither the
    sale nor the document store, and writes at most one response. *)
Theorem client_token_bounded (w : World R) :
  exists k,
    (k < 3)%nat
    /\ trace (client_token w).2
       = (trace w ++ retry_trace (CallOther "gateway.clientToken.generate") 1000 k)%list
    /\ count_calls is_sale (trace (client_token w).2) = count_calls is_sale (trace w)
    /\ count_calls is_createDocument (trace (client_token w).2)
       = count_calls is_createDocument (trace w)
    /\ (length (responses (client_token w).2) <= S (length (responses w)))%nat.
Proof.
  destruct (retryAsync_outcome (CallOther "gateway.clientToken.generate")
              gateway_clientToken_generate 3 1000 w)
    as (k & sk & r & s' & Hk & Hf & Hr & Hl & Hlast); [lia|].
  assert (Hcount : forall p, (forall name, p (CallOther name) = false) ->
            forall j, count_calls p
              (retry_trace (CallOther "gateway.clientToken.generate") 1000 j) = O).
  { intros p Hp j. induction j as [|j IH]; simpl; rewrite Hp; [reflexivity|exact IH]. }
  exists k. split; [lia|].
  destruct r as [response|e].
  - rewrite (client_token_resolved w k sk s' response); [|lia|exact Hf|exact Hr].
    cbn [snd trace responses]. rewrite !count_calls_app, !Hcount by reflexivity.
    rewrite length_app. simpl. (split; [reflexivity|]); repeat split; lia.
  - assert (k = 2%nat) by (specialize (Hlast e eq_refl); lia). subst k.
    rewrite (client_token_rejected w sk s' e Hf Hr).
    unfold bind, message_of. destruct (read_message e); simpl;
      rewrite !count_calls_app, ?length_app; simpl;
      (split; [reflexivity|]); repeat split; lia.
Qed.

End ClientTokenProperties.

(** ** More on the /checkout handler *)

Section CheckoutOutcome.

Context {R : Type} `{Environment R} `{AppwriteSdk}.
Variable process_env : ProcessEnv.

Lemma checkout_sale_throws (b : gmap string json) (w : World R) (e : value) (s1 : R) :
  passes_validation b = true ->
  gateway_transaction_sale (sale_of b) (env w) = (Throw e, s1) ->
  checkout process_env b w
  = bind (message_of e)
         (fun message =>
            res_status_json 500 [("ok", VJson (JBool false)); ("error", message)])
         (Build_World s1 (trace w ++ [Invoke (CallSale (sale_of b))]) (responses w)).
Proof.
  intros Hv Hsale. unfold checkout. cbv zeta.
  rewrite validation_test, Hv. change (negb true) with false. cbv iota.
  eapply try_catch_throw; [|reflexivity].
  eapply bind_throw. apply perform_run. exact Hsale.
Qed.

Lemma checkout_sale_fails (b : gmap string json) (w : World R)
      (result : SaleResult) (s1 : R) :
  passes_validation b = true ->
  gateway_transaction_sale (sale_of b) (env w) = (Normal result, s1) ->
  success result = false ->
  checkout process_env b w
  = (Normal tt,
     responded (Build_World s1 (trace w ++ [Invoke (CallSale (sale_of b))]) (responses w))
       {| status := match transaction result with Some _ => 400 | None => 500 end;
          body :=
            match transaction result with
            | Some t => [("ok", JBool false); ("message", JStr (tx_status t))]
            | None =>
                [("ok", JBool false);
                 ("error", JStr "Cannot read properties of undefined (reading 'status')")]
            end |}).
Proof.
  intros Hv Hsale Hs. unfold checkout. cbv zeta.
  rewrite validation_test, Hv. change (negb true) with false. cbv iota.
  unfold try_catch at 1, bind at 1.
  erewrite perform_run by exact Hsale. cbv beta iota. rewrite Hs.
  unfold transaction_status. destruct (transaction result); reflexivity.
Qed.

Lemma checkout_sale_succeeds (b : gmap string json) (w : World R)
      (result : SaleResult) (s1 s2 s3 s4 : R) (now now' : Z) (random : float) :
  passes_validation b = true ->
  gateway_transaction_sale (sale_of b) (env w) = (Normal result, s1) ->
  success result = true ->
  Date_now s1 = (now, s2) ->
  Math_random s2 = (random, s3) ->
  Date_now s3 = (now', s4) ->
  configuration_error process_env = None ->
  let orderId := order_id_of now (Number_toString36 random) in
  let create := create_of process_env b result orderId (toISOString now') in
  exists k sk rc s',
    (k < 3)%nat
    /\ failed_attempts (database_createDocument create) 1000 k s4 sk
    /\ database_createDocument create sk = (rc, s')
    /\ (forall e, rc = Throw e -> k = 2%nat)
    /\ checkout process_env b w
       = (Normal tt,
          Build_World s'
            (trace w ++ Invoke (CallSale (sale_of b))
                     :: retry_trace (CallCreateDocument create) 1000 k)
            (responses w ++
             [match rc with
              | Normal _ =>
                  {| status := 200;
                     body := stringify_object
                       [("ok", VJson (JBool true));
                        ("orderId", VJson (JStr orderId));
                        ("transactionId", of_string (transaction_id result))] |}
              | Throw _ =>
                  {| status := 500;
                     body := stringify_object
                       [("ok", VJson (JBool false));
                        ("message",
                         VJson (JStr "Payment processed but order creation failed. Please contact support."));
                        ("transactionId", of_string (transaction_id result))] |}
              end])).
Proof.
  intros Hv Hsale Hs Hnow Hrandom Hnow' Hc orderId create.
  destruct (retryAsync_outcome (CallCreateDocument create)
              (database_createDocument create) 3 1000
              (Build_World s4 (trace w ++ [Invoke (CallSale (sale_of b))]) (responses w)))
    as (k & sk & rc & s' & Hk & Hf & Hr & Hl & Hlast); [lia|].
  exists k, sk, rc, s'.
  split; [lia|]. split; [exact Hf|]. split; [exact Hr|].
  split; [intros e He; specialize (Hlast e He); lia|].
  unfold checkout. cbv zeta.
  rewrite validation_test, Hv. change (negb true) with false. cbv iota.
  eapply try_catch_normal.
  eapply bind_run; [apply perform_run; exact Hsale|].
  rewrite Hs.
  eapply bind_run; [eapply generateOrderId_run; simpl env; eassumption|].
  eapply bind_run; [eapply ask_run; simpl env; eassumption|].
  change (retryAsync ?f 3 None) with (retryAsync f 3 (Some 1000)).
  destruct rc as [[]|e].
  - eapply try_catch_normal.
    eapply bind_run; [rewrite configure_client_run, Hc; reflexivity|].
    eapply bind_run; [exact Hl|].
    unfold res_json, res_status_json. simpl. rewrite <- !app_assoc. reflexivity.
  - eapply try_catch_throw;
      [eapply bind_run; [rewrite configure_client_run, Hc; reflexivity|];
       eapply bind_throw; exact Hl|].
    unfold res_status_json. simpl. rewrite <- !app_assoc. reflexivity.
Qed.

Lemma checkout_configuration_throws (b : gmap string json) (w : World R)
      (result : SaleResult) (s1 s2 s3 s4 : R) (now now' : Z) (random : float)
      (refused : value) :
  passes_validation b = true ->
  gateway_transaction_sale (sale_of b) (env w) = (Normal result, s1) ->
  success result = true ->
  Date_now s1 = (now, s2) ->
  Math_random s2 = (random, s3) ->
  Date_now s3 = (now', s4) ->
  configuration_error process_env = Some refused ->
  checkout process_env b w
  = (Normal tt,
     Build_World s4 (trace w ++ [Invoke (CallSale (sale_of b))])
       (responses w ++
        [{| status := 500;
            body := stringify_object
              [("ok", VJson (JBool false));
               ("message",
                VJson (JStr "Payment processed but order creation failed. Please contact support."));
               ("transactionId", of_string (transaction_id result))] |}])).
Proof.
  intros Hv Hsale Hs Hnow Hrandom Hnow' Hc.
  unfold checkout. cbv zeta.
  rewrite validation_test, Hv. change (negb true) with false. cbv iota.
  eapply try_catch_normal.
  eapply bind_run; [apply perform_run; exact Hsale|].
  rewrite Hs.
  eapply bind_run; [eapply generateOrderId_run; simpl env; eassumption|].
  eapply bind_run; [eapply ask_run; simpl env; eassumption|].
  eapply try_catch_throw;
    [eapply bind_throw; rewrite configure_client_run, Hc; reflexivity|].
  reflexivity.
Qed.

End CheckoutOutcome.

Lemma forallb_false_witness {A} (p : A -> bool) (l : list A) :
  forallb p l = false -> exists x, In x l /\ p x = false.
Proof.
  induction l as [|a l IH]; simpl; [discriminate|].
  destruct (p a) eqn:Ha; simpl.
  - intros Hl. destruct (IH Hl) as (x & Hin & Hx). exists x. auto.
  - intros _. exists a. auto.
Qed.

Lemma forallb_agree {A} (p q : A -> bool) (l : list A) :
  (forall x, In x l -> p x = q x) -> forallb p l = forallb q l.
Proof.
  induction l as [|a l IH]; simpl; [reflexivity|].
  intros Hpq. rewrite (Hpq a) by auto. rewrite IH by auto. reflexivity.
Qed.

Section CheckoutExtras.

Context {R : Type} `{Environment R} `{AppwriteSdk}.
Variable process_env : ProcessEnv.

(** Every way a run of the handler can go, each with its outcome rewritten
    in the goal. *)
Ltac checkout_cases b w :=
  let Hv := fresh "Hv" in
  let Hsale := fresh "Hsale" in
  let Hs := fresh "Hs" in
  destruct (passes_validation b) eqn:Hv;
  [ destruct (gateway_transaction_sale (sale_of b) (env w)) as [[result|e] s1] eqn:Hsale;
    [ destruct (success result) eqn:Hs;
      [ let Hnow := fresh "Hnow" in
        let Hrandom := fresh "Hrandom" in
        let Hnow' := fresh "Hnow'" in
        let E := fresh "E" in
        destruct (Date_now s1) as [now s2] eqn:Hnow;
        destruct (Math_random s2) as [random s3] eqn:Hrandom;
        let Hc := fresh "Hc" in
        destruct (Date_now s3) as [now' s4] eqn:Hnow';
        destruct (configuration_error process_env) as [refused|] eqn:Hc;
        [ rewrite (checkout_configuration_throws process_env b w result s1 s2 s3 s4
                     now now' random refused Hv Hsale Hs Hnow Hrandom Hnow' Hc)
        | destruct (checkout_sale_succeeds process_env b w result s1 s2 s3 s4
                      now now' random Hv Hsale Hs Hnow Hrandom Hnow' Hc)
            as (k & sk & rc & s' & Hk & Hf & Hr & Hlast & E);
          rewrite E ]
      | rewrite (checkout_sale_fails process_env b w result s1 Hv Hsale Hs) ]
    | rewrite (checkout_sale_throws process_env b w e s1 Hv Hsale);
      unfold bind, message_of;
      let Hm := fresh "Hm" in destruct (read_message e) as [m|te] eqn:Hm ]
  | rewrite (checkout_rejects process_env b w Hv) ].

(** X8.  A sale that resolves with [success = false] and no transaction
    makes line 120 throw; the outer [catch] answers 500 with the TypeError's
    message, not 400. *)
Theorem checkout_failed_charge_without_transaction
        (b : gmap string json) (w : World R) (result : SaleResult) (s1 : R) :
  passes_validation b = true ->
  gateway_transaction_sale (sale_of b) (env w) = (Normal result, s1) ->
  success result = false ->
  transaction result = None ->
  checkout process_env b w
  = (Normal tt,
     Build_World s1 (trace w ++ [Invoke (CallSale (sale_of b))])
       (responses w ++
        [{| status := 500;
            body := [("ok", JBool false);
                     ("error",
                      JStr "Cannot read properties of undefined (reading 'status')")] |}])).
Proof.
  intros Hv Hsale Hs Ht.
  rewrite (checkout_sale_fails process_env b w result s1 Hv Hsale Hs), Ht.
  reflexivity.
Qed.

(** X9.  A sale that rejects with a value that has no [message] (a string,
    a number, an object without that property) is answered 500 with the
    body [{ ok: false }] alone: the [error] key is dropped. *)
Theorem checkout_rejection_without_message
        (b : gmap string json) (w : World R) (e : value) (s1 : R) :
  passes_validation b = true ->
  gateway_transaction_sale (sale_of b) (env w) = (Throw e, s1) ->
  read_message e = inl VUndefined ->
  checkout process_env b w
  = (Normal tt,
     Build_World s1 (trace w ++ [Invoke (CallSale (sale_of b))])
       (responses w ++ [{| status := 500; body := [("ok", JBool false)] |}])).
Proof.
  intros Hv Hsale Hm.
  rewrite (checkout_sale_throws process_env b w e s1 Hv Hsale).
  unfold bind, message_of. rewrite Hm. reflexivity.
Qed.

(** X10.  A sale that rejects with [undefined] or [null] escapes the
    handler: reading [error.message] in the [catch] block throws a
    TypeError, the handler rejects with it, and no response is written. *)
Theorem checkout_nullish_rejection_escapes
        (b : gmap string json) (w : World R) (e : value) (s1 : R) :
  passes_validation b = true ->
  gateway_transaction_sale (sale_of b) (env w) = (Throw e, s1) ->
  e = VUndefined \/ e = VJson JNull ->
  exists msg,
    checkout process_env b w
    = (Throw (VError msg),
       Build_World s1 (trace w ++ [Invoke (CallSale (sale_of b))]) (responses w)).
Proof.
  intros Hv Hsale He.
  rewrite (checkout_sale_throws process_env b w e s1 Hv Hsale).
  destruct He; subst e; eexists; reflexivity.
Qed.

(** X11.  A run of the handler that completes writes exactly one response,
    with status 200, 400 or 500; a run that throws writes none. *)
Theorem checkout_one_response (b : gmap string json) (w : World R) :
  match (checkout process_env b w).1 with
  | Normal _ =>
      exists resp,
        responses (checkout process_env b w).2 = (responses w ++ [resp])%list
        /\ (status resp = 200 \/ status resp = 400 \/ status resp = 500)
  | Throw _ => responses (checkout process_env b w).2 = responses w
  end.
Proof.
  checkout_cases b w; simpl.
  - eexists; split; [reflexivity|]. simpl; auto.
  - destruct rc; (eexists; split; [reflexivity|simpl; auto]).
  - eexists; split; [reflexivity|]. destruct (transaction result); simpl; auto.
  - eexists; split; [reflexivity|]. simpl; auto.
  - reflexivity.
  - eexists; split; [reflexivity|]. simpl; auto.
Qed.

(** X12.  A 200 response is written only when the sale resolved with
    [success = true] and the document store accepted the order: the body is
    [{ ok: true, orderId, transactionId }] for the very document id and
    transaction id of the create call that resolved, and that call is the
    last event of the trace. *)
Theorem checkout_ok_only_if_persisted
        (b : gmap string json) (w : World R) (resp : Response) :
  responses (checkout process_env b w).2 = (responses w ++ [resp])%list ->
  status resp = 200 ->
  exists result s1 create sk,
    passes_validation b = true
    /\ gateway_transaction_sale (sale_of b) (env w) = (Normal result, s1)
    /\ success result = true
    /\ database_createDocument create sk = (Normal tt, env (checkout process_env b w).2)
    /\ last (trace (checkout process_env b w).2) = Some (Invoke (CallCreateDocument create))
    /\ order_transactionId (doc_data create) = transaction_id result
    /\ order_status (doc_data create) = "Pending"
    /\ body resp
       = stringify_object
           [("ok", VJson (JBool true));
            ("orderId", VJson (JStr (doc_documentId create)));
            ("transactionId", of_string (transaction_id result))].
Proof.
  checkout_cases b w; simpl; intros Hresp Hstatus;
    try (apply app_inj_tail in Hresp as [_ <-]; simpl in Hstatus);
    try discriminate.
  - destruct rc as [[]|e0]; [|discriminate].
    eexists result, s1, _, sk. repeat split; try eassumption; try reflexivity.
    change (Invoke (CallSale (sale_of b)) :: ?t)
      with ([Invoke (CallSale (sale_of b))] ++ t)%list.
    rewrite !last_app, last_retry_trace. reflexivity.
  - destruct (transaction result); discriminate.
  - exfalso. apply (f_equal length) in Hresp. rewrite length_app in Hresp.
    simpl in Hresp. lia.
Qed.

(** X13.  The document store is called only for a validated request whose
    sale resolved with [success = true]: no order is ever stored for a
    charge that failed, was declined or did not go through. *)
Theorem checkout_persists_only_after_successful_charge
        (b : gmap string json) (w : World R) :
  count_calls is_createDocument (trace (checkout process_env b w).2)
  <> count_calls is_createDocument (trace w) ->
  passes_validation b = true
  /\ exists result s1,
       gateway_transaction_sale (sale_of b) (env w) = (Normal result, s1)
       /\ success result = true.
Proof.
  checkout_cases b w; simpl; rewrite ?count_calls_app; simpl; intros Hcount;
    try (exfalso; lia).
  split; [reflexivity|]. exists result, s1. split; [reflexivity|assumption].
Qed.

(** X14.  Whatever the request and the environment, the handler makes at
    most four remote calls, at most one of them a sale, and waits at most
    twice, 1000 ms each time. *)
Theorem checkout_calls_and_waits_bounded (b : gmap string json) (w : World R) :
  exists t,
    trace (checkout process_env b w).2 = (trace w ++ t)%list
    /\ (count_calls any_call t <= 4)%nat
    /\ (count_calls is_sale t <= 1)%nat
    /\ (exists n, (n <= 2)%nat /\ timeouts t = repeat 1000 n).
Proof.
  checkout_cases b w; simpl.
  - exists [Invoke (CallSale (sale_of b))]. simpl.
    repeat split; [lia|lia|exists O; split; [lia|reflexivity]].
  - eexists. split; [reflexivity|].
    assert (Hsale0 := proj2 (count_retry_trace_create
              (create_of process_env b result
                 (order_id_of now (Number_toString36 random)) (toISOString now'))
              1000 k)).
    simpl. rewrite count_retry_trace, Hsale0, timeouts_retry_trace.
    repeat split; [lia|lia|exists k; split; [lia|reflexivity]].
  - exists [Invoke (CallSale (sale_of b))]. simpl.
    repeat split; [lia|lia|exists O; split; [lia|reflexivity]].
  - exists [Invoke (CallSale (sale_of b))]. simpl.
    repeat split; [lia|lia|exists O; split; [lia|reflexivity]].
  - exists [Invoke (CallSale (sale_of b))]. simpl.
    repeat split; [lia|lia|exists O; split; [lia|reflexivity]].
  - exists []. rewrite app_nil_r. simpl.
    repeat split; [lia|lia|exists O; split; [lia|reflexivity]].
Qed.

Lemma checkout_rejected_iff_validation (b : gmap string json) (w : World R) :
  checkout process_env b w = (Normal tt, responded w missing_required_fields)
  <-> passes_validation b = false.
Proof.
  split; [|apply checkout_rejects].
  intros E. apply (f_equal (fun r => length (trace r.2))) in E. revert E.
  checkout_cases b w; simpl; rewrite ?length_app; simpl; intros Hlen;
    try reflexivity; exfalso; lia.
Qed.

Lemma passes_validation_false (b : gmap string json) :
  passes_validation b = false
  <-> exists f, In f required_fields /\ truthy (of_field (b !! f)) = false.
Proof.
  split.
  - intros Hv. unfold passes_validation in Hv.
    destruct (forallb_false_witness _ _ Hv) as (f & Hin & Hf).
    exists f. split; assumption.
  - intros (f & Hin & Hf). exact (falsy_field_fails_validation b f Hin Hf).
Qed.

(** X15.  The handler answers 400 "Missing required fields", touching
    nothing else, exactly when at least one of the six required fields is
    falsy; every other request reaches the gateway. *)
Theorem checkout_rejected_iff_falsy_field (b : gmap string json) (w : World R) :
  checkout process_env b w
  = (Normal tt,
     Build_World (env w) (trace w)
       (responses w ++
        [{| status := 400;
            body := [("ok", JBool false);
                     ("message", JStr "Missing required fields")] |}]))
  <-> exists f, In f required_fields /\ truthy (of_field (b !! f)) = false.
Proof.
  rewrite <- passes_validation_false. apply checkout_rejected_iff_validation.
Qed.

(** X16.  Fields other than the six required ones (phone, billingAddress,
    deviceData, anything else) play no part in validation: setting one to
    any value, or removing it, never changes whether the request is
    rejected. *)
Theorem checkout_validation_ignores_optional_fields
        (b : gmap string json) (w : World R) (k : string) (v : json) :
  ~ In k required_fields ->
  (checkout process_env (<[k := v]> b) w
   = (Normal tt, responded w missing_required_fields)
   <-> checkout process_env b w
       = (Normal tt, responded w missing_required_fields))
  /\ (checkout process_env (delete k b) w
      = (Normal tt, responded w missing_required_fields)
      <-> checkout process_env b w
          = (Normal tt, responded w missing_required_fields)).
Proof.
  intros Hk.
  assert (Hne : forall f, In f required_fields -> k <> f).
  { intros f Hin ->. exact (Hk Hin). }
  rewrite !checkout_rejected_iff_validation.
  assert (Hins : passes_validation (<[k := v]> b) = passes_validation b).
  { unfold passes_validation. apply forallb_agree.
    intros f Hin. rewrite lookup_insert_ne by exact (Hne f Hin). reflexivity. }
  assert (Hdel : passes_validation (delete k b) = passes_validation b).
  { unfold passes_validation. apply forallb_agree.
    intros f Hin. rewrite lookup_delete_ne by exact (Hne f Hin). reflexivity. }
  rewrite Hins, Hdel. tauto.
Qed.

(** X24.  When the sale succeeded but a setter of the Appwrite client
    refuses its value from [process.env] (an unset APPWRITE_ENDPOINT, say),
    the inner [catch] answers the same 500 "contact support" response with
    the charge's transaction id; the document store is never called and
    nothing is waited for. *)
Theorem checkout_configuration_refused
        (b : gmap string json) (w : World R) (result : SaleResult)
        (s1 s2 s3 s4 : R) (now now' : Z) (random : float) (refused : value) :
  passes_validation b = true ->
  gateway_transaction_sale (sale_of b) (env w) = (Normal result, s1) ->
  success result = true ->
  Date_now s1 = (now, s2) ->
  Math_random s2 = (random, s3) ->
  Date_now s3 = (now', s4) ->
  configuration_error process_env = Some refused ->
  checkout process_env b w
  = (Normal tt,
     Build_World s4 (trace w ++ [Invoke (CallSale (sale_of b))])
       (responses w ++
        [{| status := 500;
            body := stringify_object
              [("ok", VJson (JBool false));
               ("message",
                VJson (JStr "Payment processed but order creation failed. Please contact support."));
               ("transactionId", of_string (transaction_id result))] |}]))
  /\ count_calls is_createDocument (trace (checkout process_env b w).2)
     = count_calls is_createDocument (trace w)
  /\ timeouts (trace (checkout process_env b w).2) = timeouts (trace w).
Proof.
  intros Hv Hsale Hs Hnow Hrandom Hnow' Hc.
  rewrite (checkout_configuration_throws process_env b w result s1 s2 s3 s4
             now now' random refused Hv Hsale Hs Hnow Hrandom Hnow' Hc).
  split; [reflexivity|]. simpl. split.
  - rewrite count_calls_app. simpl. lia.
  - induction (trace w) as [|[c|ms] t IH]; simpl; congruence.
Qed.

End CheckoutExtras.

(** C5.  The code at a business failure that reports no transaction (what
    the gateway resolves with for a validation error): the request is valid
    and the sale resolves with [success = false]; line 120 reads
    [result.transaction.status] without the [?.] of lines 92, 111 and 116,
    throws, and the outer [catch] answers 500 with the TypeError's message
    instead of 400 with the gateway's status. *)
Theorem checkout_business_failure_answers_500 :
  passes_validation Mock.request = true
  /\ gateway_transaction_sale (sale_of Mock.request)
       (env (Mock.start [Normal {| success := false; transaction := None |}] []))
     = (Normal {| success := false; transaction := None |}, env Mock.idle)
  /\ checkout Mock.process_env Mock.request
       (Mock.start [Normal {| success := false; transaction := None |}] [])
     = (Normal tt,
        Build_World (env Mock.idle)
          [Invoke (CallSale (sale_of Mock.request))]
          [{| status := 500;
              body := [("ok", JBool false);
                       ("error",
                        JStr "Cannot read properties of undefined (reading 'status')")] |}]).
Proof. repeat split; vm_compute; reflexivity. Qed.

(** ** Properties of [generateOrderId] *)

Lemma toUpperCase_app (s1 s2 : string) :
  toUpperCase (s1 ++ s2) = (toUpperCase s1 ++ toUpperCase s2)%string.
Proof. induction s1 as [|c s1 IH]; simpl; [reflexivity | now rewrite IH]. Qed.

Lemma upper_ascii_idempotent (c : ascii) : upper_ascii (upper_ascii c) = upper_ascii c.
Proof. destruct c as [[] [] [] [] [] [] [] []]; reflexivity. Qed.

Lemma toUpperCase_idempotent (s : string) : toUpperCase (toUpperCase s) = toUpperCase s.
Proof.
  induction s as [|c s IH]; simpl; [reflexivity|].
  now rewrite upper_ascii_idempotent, IH.
Qed.

Lemma toUpperCase_length (s : string) : String.length (toUpperCase s) = String.length s.
Proof. induction s as [|c s IH]; simpl; [reflexivity | now rewrite IH]. Qed.

Lemma substring_length_le (n m : nat) (s : string) :
  (String.length (String.substring n m s) <= m)%nat.
Proof.
  revert n m. induction s as [|c s IH]; intros [|n] [|m]; simpl; try lia.
  - specialize (IH O m). lia.
  - apply (IH n O).
  - apply (IH n (S m)).
Qed.

Lemma substring_short (n m : nat) (s : string) :
  (String.length s <= n)%nat -> String.substring n m s = "".
Proof.
  revert n m. induction s as [|c s IH]; intros [|n] [|m] Hl; simpl in *;
    try reflexivity; try lia; apply IH; lia.
Qed.

Lemma digit36_value (d : Z) :
  0 <= d < 36 -> digit_value36 (upper_ascii (digit36 d)) = Some d.
Proof.
  intros Hd.
  assert (Hk : exists k, (k < 36)%nat /\ d = Z.of_nat k)
    by (exists (Z.to_nat d); lia).
  destruct Hk as (k & Hk & ->).
  do 36 (destruct k as [|k]; [vm_compute; reflexivity|]). lia.
Qed.

Lemma digits36_app (fuel : nat) :
  forall n acc tail,
    (digits36 fuel n acc ++ tail)%string = digits36 fuel n (acc ++ tail).
Proof.
  induction fuel as [|fuel IH]; intros n acc tail; simpl; [reflexivity|].
  destruct (n / 36 =? 0); [reflexivity|]. rewrite IH. reflexivity.
Qed.

Lemma digits36_first (fuel : nat) :
  forall n acc,
    exists d rest, 0 <= d < 36 /\ digits36 (S fuel) n acc = String (digit36 d) rest.
Proof.
  induction fuel as [|fuel IH]; intros n acc.
  - exists (n mod 36), acc. split; [apply Z.mod_pos_bound; lia|].
    simpl. destruct (n / 36 =? 0); reflexivity.
  - change (digits36 (S (S fuel)) n acc)
      with (if n / 36 =? 0 then String (digit36 (n mod 36)) acc
            else digits36 (S fuel) (n / 36) (String (digit36 (n mod 36)) acc)).
    destruct (n / 36 =? 0).
    + exists (n mod 36), acc. split; [apply Z.mod_pos_bound; lia|reflexivity].
    + apply IH.
Qed.

(** Reading the upper-cased digits of [n] multiplies what was read before by
    a power of the radix and adds [n]. *)
Lemma parse_digits36_digits36 (fuel : nat) :
  forall n acc,
    0 <= n < 2 ^ Z.of_nat (S fuel) ->
    exists m, forall init,
      parse_digits36 (toUpperCase (digits36 (S fuel) n acc)) init
      = parse_digits36 (toUpperCase acc) (init * m + n).
Proof.
  assert (Hlast : forall n acc init, 0 <= n -> n / 36 = 0 ->
            parse_digits36 (toUpperCase (String (digit36 (n mod 36)) acc)) init
            = parse_digits36 (toUpperCase acc) (init * 36 + n)).
  { intros n acc init Hn Hq. simpl.
    rewrite digit36_value by (apply Z.mod_pos_bound; lia).
    f_equal. pose proof (Z.div_mod n 36). lia. }
  induction fuel as [|fuel IH]; intros n acc Hn.
  - assert (Hq : n / 36 = 0) by (apply Z.div_small; simpl in Hn; lia).
    exists 36. intros init. simpl digits36. rewrite Hq. simpl Z.eqb. cbv iota.
    apply Hlast; [lia|exact Hq].
  - change (digits36 (S (S fuel)) n acc)
      with (if n / 36 =? 0 then String (digit36 (n mod 36)) acc
            else digits36 (S fuel) (n / 36) (String (digit36 (n mod 36)) acc)).
    destruct (Z.eqb_spec (n / 36) 0) as [Hq|Hq].
    + exists 36. intros init. apply Hlast; [lia|exact Hq].
    + destruct (IH (n / 36) (String (digit36 (n mod 36)) acc)) as (m & Hm).
      { split; [apply Z.div_pos; lia|].
        apply Z.div_lt_upper_bound; [lia|].
        replace (Z.of_nat (S (S fuel))) with (Z.succ (Z.of_nat (S fuel))) in Hn by lia.
        rewrite Z.pow_succ_r in Hn by lia. lia. }
      exists (m * 36). intros init. rewrite Hm. simpl.
      rewrite digit36_value by (apply Z.mod_pos_bound; lia).
      f_equal. pose proof (Z.div_mod n 36). lia.
Qed.

Lemma parseInt36_digit_first (c : ascii) (rest : string) (d : Z) :
  digit_value36 c = Some d ->
  parseInt36 (String c rest) = parse_unsigned36 (String c rest).
Proof.
  destruct c as [[] [] [] [] [] [] [] []]; try reflexivity; vm_compute; discriminate.
Qed.

Lemma parse_unsigned36_magnitude (n : Z) (tail : string) :
  0 <= n ->
  parse_unsigned36
    (toUpperCase (digits36 (S (Z.to_nat (Z.log2 n))) n "" ++ String "-" tail))
  = Some n
  /\ parseInt36
       (toUpperCase (digits36 (S (Z.to_nat (Z.log2 n))) n "" ++ String "-" tail))
     = Some n.
Proof.
  intros Hn. rewrite !digits36_app.
  change ("" ++ String "-" tail)%string with (String "-" tail).
  set (fuel := Z.to_nat (Z.log2 n)).
  assert (Hrange : 0 <= n < 2 ^ Z.of_nat (S fuel)).
  { split; [exact Hn|]. unfold fuel.
    replace (Z.of_nat (S (Z.to_nat (Z.log2 n)))) with (Z.succ (Z.log2 n))
      by (pose proof (Z.log2_nonneg n); lia).
    destruct (Z.eq_dec n 0) as [->|Hne]; [reflexivity|].
    apply Z.log2_spec. lia. }
  destruct (parse_digits36_digits36 fuel n (String "-" tail) Hrange) as (m & Hm).
  destruct (digits36_first fuel n (String "-" tail)) as (d & rest & Hd & Hfirst).
  assert (Hu : parse_unsigned36 (toUpperCase (digits36 (S fuel) n (String "-" tail)))
               = Some n).
  { unfold parse_unsigned36.
    rewrite Hfirst at 1. cbn [toUpperCase]. rewrite (digit36_value d Hd).
    rewrite Hm. simpl. f_equal; lia. }
  split; [exact Hu|].
  rewrite <- Hu. fold fuel. rewrite Hfirst. cbn [toUpperCase].
  apply (parseInt36_digit_first _ _ d). apply digit36_value. exact Hd.
Qed.

(** The identifier reads back, with [parseInt(id, 36)], as the clock reading
    it was made from, whatever the random part. *)
Lemma parseInt36_order_id (now : Z) (random36 : string) :
  parseInt36 (order_id_of now random36) = Some now.
Proof.
  unfold order_id_of, toString36.
  destruct (Z.ltb_spec now 0) as [Hneg|Hpos].
  - change (String "-" ?ds ++ ?t)%string with (String "-" (ds ++ t)%string).
    cbn [toUpperCase]. change (upper_ascii "-") with "-"%char.
    cbn [parseInt36].
    destruct (parse_unsigned36_magnitude (Z.abs now) (slice 2 7 random36)) as [Hu _];
      [lia|].
    change ("-" ++ slice 2 7 random36)%string with (String "-" (slice 2 7 random36)).
    rewrite Hu. simpl. f_equal. lia.
  - replace (Z.abs now) with now by lia.
    change ("-" ++ slice 2 7 random36)%string with (String "-" (slice 2 7 random36)).
    apply parse_unsigned36_magnitude. exact Hpos.
Qed.

Section OrderIdProperties.

Context {R : Type} `{Environment R}.

Lemma generateOrderId_value (w : World R) :
  generateOrderId w
  = (Normal (order_id_of (Date_now (env w)).1
                         (Number_toString36 (Math_random (Date_now (env w)).2).1)),
     Build_World (Math_random (Date_now (env w)).2).2 (trace w) (responses w)).
Proof.
  destruct (Date_now (env w)) as [now s2] eqn:Hnow.
  destruct (Math_random s2) as [random s3] eqn:Hrandom.
  rewrite (generateOrderId_run w now random s2 s3 Hnow Hrandom).
  simpl. rewrite Hrandom. reflexivity.
Qed.

(** X17.  [generateOrderId] always resolves, and the identifier it gives
    reads back, with [parseInt(id, 36)], as the clock reading it was made
    from: upper-casing and the random part lose nothing of the timestamp. *)
Theorem generateOrderId_timestamp_round_trip (w : World R) :
  exists id,
    (generateOrderId w).1 = Normal id
    /\ parseInt36 id = Some (Date_now (env w)).1.
Proof.
  rewrite generateOrderId_value. eexists. split; [reflexivity|].
  apply parseInt36_order_id.
Qed.

(** X18.  Identifiers generated at different clock readings are different,
    whatever the random draws. *)
Theorem generateOrderId_distinct_clock_distinct_id (w1 w2 : World R) :
  (Date_now (env w1)).1 <> (Date_now (env w2)).1 ->
  (generateOrderId w1).1 <> (generateOrderId w2).1.
Proof.
  intros Hclock. rewrite !generateOrderId_value. simpl. intros E.
  apply Hclock. injection E as E.
  apply (f_equal parseInt36) in E. rewrite !parseInt36_order_id in E.
  congruence.
Qed.

(** X19.  The identifier is the upper-cased radix-36 timestamp, a hyphen,
    and a random part of at most five characters; it is left unchanged by
    upper-casing; generating it makes no remote call and writes no
    response. *)
Theorem generateOrderId_shape (w : World R) :
  exists suffix,
    (generateOrderId w).1
    = Normal (toUpperCase (toString36 (Date_now (env w)).1) ++ "-" ++ suffix)%string
    /\ (String.length suffix <= 5)%nat
    /\ toUpperCase (toUpperCase (toString36 (Date_now (env w)).1) ++ "-" ++ suffix)
       = (toUpperCase (toString36 (Date_now (env w)).1) ++ "-" ++ suffix)%string
    /\ trace (generateOrderId w).2 = trace w
    /\ responses (generateOrderId w).2 = responses w.
Proof.
  rewrite generateOrderId_value. simpl. unfold order_id_of.
  set (ts := toString36 (Date_now (env w)).1).
  set (r := slice 2 7 (Number_toString36 (Math_random (Date_now (env w)).2).1)).
  exists (toUpperCase r).
  rewrite <- (toUpperCase_app "-" r : (_ = "-" ++ toUpperCase r)%string).
  rewrite <- toUpperCase_app.
  split; [reflexivity|]. split; [|split; [|split; reflexivity]].
  - rewrite toUpperCase_length. unfold r, slice. apply (substring_length_le 2 5).
  - apply toUpperCase_idempotent.
Qed.

(** X20.  When the random draw renders in at most two characters (a draw of
    0 renders as "0"), the random part is empty and the identifier ends with
    the hyphen. *)
Theorem generateOrderId_empty_random_part (w : World R) :
  (String.length (Number_toString36 (Math_random (Date_now (env w)).2).1) <= 2)%nat ->
  (generateOrderId w).1
  = Normal (toUpperCase (toString36 (Date_now (env w)).1) ++ "-")%string.
Proof.
  intros Hshort. rewrite generateOrderId_value. simpl. unfold order_id_of, slice.
  rewrite (substring_short 2 (7 - 2) _ Hshort). rewrite !toUpperCase_app. reflexivity.
Qed.

End OrderIdProperties.

(** ** Properties of the start-up code and the CORS middleware *)

(** X21.  On every request the middleware sets the three CORS headers to
    their fixed values, overriding what was there, and leaves every other
    header alone; it answers 200 at once exactly when the method is OPTIONS
    and hands every other request on. *)
Theorem cors_headers_and_preflight (method : string) (headers : gmap string string) :
  (cors method headers).1 !! "Access-Control-Allow-Origin" = Some "*"
  /\ (cors method headers).1 !! "Access-Control-Allow-Methods" = Some "GET,POST,OPTIONS"
  /\ (cors method headers).1 !! "Access-Control-Allow-Headers" = Some "Content-Type"
  /\ (forall k : string,
        k <> "Access-Control-Allow-Origin" ->
        k <> "Access-Control-Allow-Methods" ->
        k <> "Access-Control-Allow-Headers" ->
        (cors method headers).1 !! k = headers !! k)
  /\ ((cors method headers).2 = SendStatus 200 <-> method = "OPTIONS")
  /\ ((cors method headers).2 = CallNext <-> method <> "OPTIONS").
Proof.
  unfold cors. destruct (String.eqb_spec method "OPTIONS") as [Hm|Hm]; simpl;
    (split; [|split; [|split; [|split; [|split]]]]);
    try (intros k H1 H2 H3); simplify_map_eq; try reflexivity;
    split; intros; congruence.
Qed.

(** X22.  The Production gateway is selected only when
    BRAINTREE_ENVIRONMENT is exactly "Production"; unset, or any other
    value or casing, selects the Sandbox. *)
Theorem environment_production_iff (v : option string) :
  (environment v = Production <-> v = Some "Production")
  /\ (environment v = Sandbox <-> v <> Some "Production").
Proof.
  unfold environment. destruct v as [s|]; [|split; split; congruence].
  destruct (String.eqb_spec s "Production") as [->|Hs];
    split; split; congruence.
Qed.

(** X23.  The port is the PORT variable as given, and 3000 exactly when that
    variable is unset or empty; either way it is truthy. *)
Theorem PORT_fallback (p : option string) :
  (PORT p = VJson (JNum 3000) <-> p = None \/ p = Some "")
  /\ (forall s, p = Some s -> s <> "" -> PORT p = VJson (JStr s))
  /\ truthy (PORT p) = true.
Proof.
  unfold PORT. destruct p as [s|]; simpl.
  - destruct (String.eqb_spec s "") as [->|Hs]; simpl.
    + repeat split; auto. intros s' [= <-] Hs'. congruence.
    + repeat split.
      * discriminate.
      * intros [Hp|Hp]; congruence.
      * intros s' [= <-] _. reflexivity.
      * destruct (String.eqb_spec s ""); [congruence|reflexivity].
  - repeat split; auto. discriminate.
Qed.

(** ** The further statements at the scripted environments *)

Lemma client_token_answers_token_witness :
  client_token (TokenMock.start [Throw (VError "ETIMEDOUT"); TokenMock.token "tok_1"])
  = (Normal tt,
     Build_World (TokenMock.elapse 1000 (env (TokenMock.start [])))
       ([] ++ retry_trace (CallOther "gateway.clientToken.generate") 1000 1)
       ([] ++ [{| status := 200;
                  body := stringify_object
                            [("ok", VJson (JBool true));
                             ("clientToken", VJson (JStr "tok_1"))] |}])).
Proof.
  apply (client_token_answers_token
           (TokenMock.start [Throw (VError "ETIMEDOUT"); TokenMock.token "tok_1"])
           1%nat
           (TokenMock.elapse 1000 (env (TokenMock.start [TokenMock.token "tok_1"])))
           (TokenMock.elapse 1000 (env (TokenMock.start [])))
           {| clientToken := VJson (JStr "tok_1") |}).
  - lia.
  - eapply failed_again; [reflexivity|]. apply failed_none.
  - reflexivity.
Defined.

Lemma client_token_gives_up_after_three_witness :
  (client_token (TokenMock.start [])).1 = Normal tt
  /\ responses (client_token (TokenMock.start [])).2
     = [{| status := 500;
           body := [("ok", JBool false);
                    ("message", JStr "Error generating client token");
                    ("error", JStr "connect ECONNREFUSED")] |}].
Proof.
  destruct (client_token_gives_up_after_three
              (TokenMock.start [])
              (TokenMock.elapse 1000 (TokenMock.elapse 1000 (env (TokenMock.start []))))
              (TokenMock.elapse 1000 (TokenMock.elapse 1000 (env (TokenMock.start []))))
              "connect ECONNREFUSED") as (E & _).
  - eapply failed_again; [reflexivity|].
    eapply failed_again; [reflexivity|]. apply failed_none.
  - reflexivity.
  - rewrite E. split; reflexivity.
Defined.

Lemma client_token_ok_without_token_witness :
  client_token (TokenMock.start [Normal {| clientToken := VUndefined |}])
  = (Normal tt,
     Build_World (env (TokenMock.start []))
       ([] ++ retry_trace (CallOther "gateway.clientToken.generate") 1000 0)
       ([] ++ [{| status := 200; body := [("ok", JBool true)] |}])).
Proof.
  apply (client_token_ok_without_token
           (TokenMock.start [Normal {| clientToken := VUndefined |}])
           0%nat
           (env (TokenMock.start [Normal {| clientToken := VUndefined |}]))
           (env (TokenMock.start []))
           {| clientToken := VUndefined |}).
  - lia.
  - apply failed_none.
  - reflexivity.
  - reflexivity.
Defined.

Lemma client_token_nullish_rejection_escapes_witness :
  exists msg,
    client_token
      (TokenMock.start [Throw (VError "a"); Throw (VError "b"); Throw VUndefined])
    = (Throw (VError msg),
       Build_World (TokenMock.elapse 1000 (TokenMock.elapse 1000 (env (TokenMock.start []))))
         ([] ++ retry_trace (CallOther "gateway.clientToken.generate") 1000 2) []).
Proof.
  apply (client_token_nullish_rejection_escapes
           (TokenMock.start [Throw (VError "a"); Throw (VError "b"); Throw VUndefined])
           (TokenMock.elapse 1000
              (TokenMock.elapse 1000 (env (TokenMock.start [Throw VUndefined]))))
           (TokenMock.elapse 1000 (TokenMock.elapse 1000 (env (TokenMock.start []))))
           VUndefined).
  - eapply failed_again; [reflexivity|].
    eapply failed_again; [reflexivity|]. apply failed_none.
  - reflexivity.
  - left. reflexivity.
Defined.

Lemma checkout_failed_charge_without_transaction_witness :
  checkout Mock.process_env Mock.request
           (Mock.start [Normal {| success := false; transaction := None |}] [])
  = (Normal tt,
     Build_World (env Mock.idle)
       (trace Mock.idle ++ [Invoke (CallSale (sale_of Mock.request))])
       (responses Mock.idle ++
        [{| status := 500;
            body := [("ok", JBool false);
                     ("error",
                      JStr "Cannot read properties of undefined (reading 'status')")] |}])).
Proof.
  apply (checkout_failed_charge_without_transaction
           Mock.process_env Mock.request
           (Mock.start [Normal {| success := false; transaction := None |}] [])
           {| success := false; transaction := None |} (env Mock.idle)).
  - vm_compute. reflexivity.
  - reflexivity.
  - reflexivity.
  - reflexivity.
Defined.

Lemma checkout_rejection_without_message_witness :
  checkout Mock.process_env Mock.request
           (Mock.start [Throw (VJson (JStr "socket hang up"))] [])
  = (Normal tt,
     Build_World (env Mock.idle)
       (trace Mock.idle ++ [Invoke (CallSale (sale_of Mock.request))])
       (responses Mock.idle ++ [{| status := 500; body := [("ok", JBool false)] |}])).
Proof.
  apply (checkout_rejection_without_message
           Mock.process_env Mock.request
           (Mock.start [Throw (VJson (JStr "socket hang up"))] [])
           (VJson (JStr "socket hang up")) (env Mock.idle)).
  - vm_compute. reflexivity.
  - reflexivity.
  - reflexivity.
Defined.

Lemma checkout_nullish_rejection_escapes_witness :
  exists msg,
    checkout Mock.process_env Mock.request (Mock.start [Throw VUndefined] [])
    = (Throw (VError msg),
       Build_World (env Mock.idle)
         (trace (Mock.start [Throw VUndefined] [])
          ++ [Invoke (CallSale (sale_of Mock.request))])
         (responses (Mock.start [Throw VUndefined] []))).
Proof.
  apply (checkout_nullish_rejection_escapes
           Mock.process_env Mock.request (Mock.start [Throw VUndefined] [])
           VUndefined (env Mock.idle)).
  - vm_compute. reflexivity.
  - reflexivity.
  - left. reflexivity.
Defined.

Lemma checkout_ok_only_if_persisted_witness :
  exists result s1 create sk,
    passes_validation Mock.request = true
    /\ gateway_transaction_sale (sale_of Mock.request)
         (env (Mock.start [Mock.approved] [Normal tt])) = (Normal result, s1)
    /\ success result = true
    /\ database_createDocument create sk
       = (Normal tt,
          env (checkout Mock.process_env Mock.request
                        (Mock.start [Mock.approved] [Normal tt])).2)
    /\ last (trace (checkout Mock.process_env Mock.request
                             (Mock.start [Mock.approved] [Normal tt])).2)
       = Some (Invoke (CallCreateDocument create))
    /\ order_transactionId (doc_data create) = transaction_id result
    /\ order_status (doc_data create) = "Pending"
    /\ [("ok", JBool true); ("orderId", JStr "LOYW3V28-I"); ("transactionId", JStr "TX1")]
       = stringify_object
           [("ok", VJson (JBool true));
            ("orderId", VJson (JStr (doc_documentId create)));
            ("transactionId", of_string (transaction_id result))].
Proof.
  apply (checkout_ok_only_if_persisted
           Mock.process_env Mock.request (Mock.start [Mock.approved] [Normal tt])
           {| status := 200;
              body := [("ok", JBool true); ("orderId", JStr "LOYW3V28-I");
                       ("transactionId", JStr "TX1")] |}).
  - vm_compute. reflexivity.
  - reflexivity.
Defined.

Lemma checkout_persists_only_after_successful_charge_witness :
  passes_validation Mock.request = true
  /\ exists result s1,
       gateway_transaction_sale (sale_of Mock.request)
         (env (Mock.start [Mock.approved] [Normal tt])) = (Normal result, s1)
       /\ success result = true.
Proof.
  apply (checkout_persists_only_after_successful_charge
           Mock.process_env Mock.request (Mock.start [Mock.approved] [Normal tt])).
  vm_compute. lia.
Defined.

Lemma checkout_validation_ignores_optional_fields_witness :
  (checkout Mock.process_env (<["phone" := JStr "555"]> Mock.request) Mock.idle
   = (Normal tt, responded Mock.idle missing_required_fields)
   <-> checkout Mock.process_env Mock.request Mock.idle
       = (Normal tt, responded Mock.idle missing_required_fields))
  /\ (checkout Mock.process_env (delete "phone" Mock.request) Mock.idle
      = (Normal tt, responded Mock.idle missing_required_fields)
      <-> checkout Mock.process_env Mock.request Mock.idle
          = (Normal tt, responded Mock.idle missing_required_fields)).
Proof.
  apply (checkout_validation_ignores_optional_fields
           Mock.process_env Mock.request Mock.idle "phone" (JStr "555")).
  simpl. intuition discriminate.
Defined.

Lemma generateOrderId_distinct_clock_distinct_id_witness :
  (generateOrderId Mock.idle).1
  <> (generateOrderId
        (Build_World (Mock.elapse 1 (env Mock.idle)) [] [])).1.
Proof.
  apply (generateOrderId_distinct_clock_distinct_id
           Mock.idle (Build_World (Mock.elapse 1 (env Mock.idle)) [] [])).
  simpl. lia.
Defined.

Lemma generateOrderId_empty_random_part_witness :
  (generateOrderId (H := zero_random) Mock.idle).1 = Normal "LOYW3V28-".
Proof.
  apply (generateOrderId_empty_random_part (H := zero_random) Mock.idle).
  simpl. lia.
Defined.

Lemma checkout_configuration_refused_witness :
  (checkout Mock.process_env_without_endpoint Mock.request
            (Mock.start [Mock.approved] [Normal tt])).1 = Normal tt
  /\ responses (checkout Mock.process_env_without_endpoint Mock.request
                         (Mock.start [Mock.approved] [Normal tt])).2
     = [{| status := 500;
           body := [("ok", JBool false);
                    ("message",
                     JStr "Payment processed but order creation failed. Please contact support.");
                    ("transactionId", JStr "TX1")] |}]
  /\ trace (checkout Mock.process_env_without_endpoint Mock.request
                     (Mock.start [Mock.approved] [Normal tt])).2
     = [Invoke (CallSale (sale_of Mock.request))].
Proof.
  destruct (checkout_configuration_refused
              Mock.process_env_without_endpoint Mock.request
              (Mock.start [Mock.approved] [Normal tt])
              {| success := true;
                 transaction :=
                   Some {| tx_id := "TX1"; tx_status := "submitted_for_settlement" |} |}
              (Mock.env_of [] [Normal tt]) (Mock.env_of [] [Normal tt])
              (Mock.env_of [] [Normal tt]) (Mock.env_of [] [Normal tt])
              1700000000000 1700000000000 0.5%float
              (VError "Cannot read properties of undefined (reading 'startsWith')"))
    as (E & _).
  - vm_compute. reflexivity.
  - reflexivity.
  - reflexivity.
  - reflexivity.
  - reflexivity.
  - reflexivity.
  - reflexivity.
  - rewrite E. repeat split; reflexivity.
Defined.
